(** * The Airflow notification channel of Grafana's unified alerting

    A shallow embedding of
    [pkg/services/ngalert/notifier/channels/airflow.go]: the typed
    configuration builder [NewAirflowConfig], the factory
    [AirflowFactory], the constructor [NewAirflowNotifier] and the
    delivery operation [Notify], together with the pieces of the Go
    standard library ([strings], [fmt], [encoding/json]) and of
    [simplejson] that these functions call.

    Go strings are byte strings; they are modelled by [string], whose
    characters are bytes.  Go maps are modelled by [gmap]; a map variable
    that may be [nil] is an [option] of a [gmap]. *)

From stdpp Require Import gmap strings list fin_maps sorting.
From Stdlib Require Import NArith Ascii DecimalString.

#[local] Set Warnings "-register-all,-clear-no-such-hyp".

(** ** Bytes and byte strings *)

(** The double quote and the single quote, by their codes. *)
Definition dquote : ascii := "034"%char.
Definition squote : ascii := "039"%char.
Definition backslash : ascii := "092"%char.

Definition byte_string (c : ascii) : string := String c EmptyString.

Fixpoint string_map (f : ascii → ascii) (s : string) : string :=
  match s with
  | EmptyString => EmptyString
  | String c r => String (f c) (string_map f r)
  end.

Fixpoint string_count (c : ascii) (s : string) : nat :=
  match s with
  | EmptyString => 0
  | String d r => (if Ascii.eqb c d then 1 else 0) + string_count c r
  end.

Fixpoint string_join (sep : string) (l : list string) : string :=
  match l with
  | [] => ""
  | [x] => x
  | x :: r => x +:+ sep +:+ string_join sep r
  end.

(** [has_prefix p s] is Go's [strings.HasPrefix(s, p)]. *)
Fixpoint has_prefix (p s : string) : bool :=
  match p, s with
  | EmptyString, _ => true
  | String a p', String b s' => Ascii.eqb a b && has_prefix p' s'
  | String _ _, EmptyString => false
  end.

Fixpoint drop_bytes (n : nat) (s : string) : string :=
  match n, s with
  | S k, String _ r => drop_bytes k r
  | _, _ => s
  end.

Fixpoint take_bytes (n : nat) (s : string) : string :=
  match n, s with
  | S k, String c r => String c (take_bytes k r)
  | _, _ => EmptyString
  end.

Module gostrings.

(** [strings.ReplaceAll(s, old, new)]: every non-overlapping occurrence
    of [old], found from left to right, is replaced by [new].  [skip]
    counts the bytes of an occurrence already replaced that are still
    to be stepped over.  For an empty [old], Go inserts [new] before
    every character and at the end. *)
Fixpoint replace_from (skip : nat) (s old new : string) : string :=
  match s with
  | EmptyString => EmptyString
  | String c r =>
      match skip with
      | S k => replace_from k r old new
      | O =>
          if has_prefix old s
          then new +:+ replace_from (String.length old - 1) r old new
          else String c (replace_from 0 r old new)
      end
  end.

Fixpoint insert_before_each (s new : string) : string :=
  match s with
  | EmptyString => new
  | String c r => new +:+ String c (insert_before_each r new)
  end.

Definition ReplaceAll (s old new : string) : string :=
  match old with
  | EmptyString => insert_before_each s new
  | String _ _ => replace_from 0 s old new
  end.

End gostrings.

Module fmt.

(** [fmt.Sprintf] restricted to the verbs [%s] and [%%] with string
    operands, which is all the channel uses. *)
Fixpoint Sprintf (format : string) (args : list string) : string :=
  match format with
  | EmptyString =>
      match args with
      | [] => ""
      | _ :: _ => "%!(EXTRA string=" +:+ string_join ", string=" args +:+ ")"
      end
  | String "%" (String "s" r) =>
      match args with
      | a :: args' => a +:+ Sprintf r args'
      | [] => "%!s(MISSING)" +:+ Sprintf r []
      end
  | String "%" (String "%" r) => String "%" (Sprintf r args)
  | String c r => String c (Sprintf r args)
  end.

End fmt.

(** ** JSON documents *)

(** The values [encoding/json] produces when it decodes into an
    [interface{}], and that [simplejson] wraps.  A number is held as a
    text.  The decoder reads a number as the literal of the document; in
    a value decoded into an [interface{}] the number is a [float64], and
    it is held as the text [json.Marshal] writes for that [float64],
    which determines it.  Nothing below looks inside the numbers of a
    settings document. *)
Inductive Json : Type :=
| JNull
| JBool (b : bool)
| JNumber (lit : string)
| JString (s : string)
| JArray (l : list Json)
| JObject (m : gmap string Json).

(** The arithmetic of [float64] is outside this development.
    [float64_text lit] stands for [strconv.ParseFloat(lit, 64)] followed
    by the formatting of [json.Marshal]: for a number literal [lit] it is
    the text written for the [float64] nearest to [lit], as [1] for
    [1.0], [100] for [1e2] and [12345678901234567000] for
    [12345678901234567890]; it is [None] when [lit] is outside the range
    of [float64], as [1e400], where [ParseFloat] returns an error. *)
Class Float64 : Type := {
  float64_text : string → option string
}.

Module json.

(** *** Decoding *)

Definition is_space (c : ascii) : bool :=
  let n := N_of_ascii c in
  ((n =? 32) || (n =? 9) || (n =? 10) || (n =? 13))%N.

Definition is_digit (c : ascii) : bool :=
  let n := N_of_ascii c in ((48 <=? n) && (n <=? 57))%N.

Fixpoint skip_space (s : string) : string :=
  match s with
  | String c r => if is_space c then skip_space r else s
  | EmptyString => s
  end.

Definition hex_value (c : ascii) : option N :=
  let n := N_of_ascii c in
  if ((48 <=? n) && (n <=? 57))%N then Some (n - 48)%N
  else if ((97 <=? n) && (n <=? 102))%N then Some (n - 87)%N
  else if ((65 <=? n) && (n <=? 70))%N then Some (n - 55)%N
  else None.

(** Four hexadecimal digits, as after a [\u] escape. *)
Definition getu4 (s : string) : option (N * string) :=
  match s with
  | String a (String b (String c (String d r))) =>
      match hex_value a, hex_value b, hex_value c, hex_value d with
      | Some x, Some y, Some z, Some w =>
          Some (((x * 16 + y) * 16 + z) * 16 + w, r)%N
      | _, _, _, _ => None
      end
  | _ => None
  end.

Definition utf8_EncodeRune (r : N) : string :=
  let b (x : N) := byte_string (ascii_of_N x) in
  (if r <? 128 then b r
   else if r <? 2048 then
     b (N.lor 192 (N.shiftr r 6)) +:+ b (N.lor 128 (N.land r 63))
   else if r <? 65536 then
     b (N.lor 224 (N.shiftr r 12)) +:+
     b (N.lor 128 (N.land (N.shiftr r 6) 63)) +:+
     b (N.lor 128 (N.land r 63))
   else
     b (N.lor 240 (N.shiftr r 18)) +:+
     b (N.lor 128 (N.land (N.shiftr r 12) 63)) +:+
     b (N.lor 128 (N.land (N.shiftr r 6) 63)) +:+
     b (N.lor 128 (N.land r 63)))%N.

Definition ReplacementChar : N := 65533.
Definition is_surrogate (r : N) : bool := ((55296 <=? r) && (r <? 57344))%N.

Definition byte_between (lo hi : N) (c : ascii) : bool :=
  ((lo <=? N_of_ascii c) && (N_of_ascii c <=? hi))%N.

(** [utf8.DecodeRune], as far as the decoder and the encoder look at it:
    the number of bytes of the well-formed encoding of a rune at the head
    of [s], and 0 when the head of [s] is no such encoding (Go then
    returns the replacement character with a width of one byte).  A
    well-formed encoding is one byte below 128, or a leading byte and one
    to three continuation bytes, without the overlong forms, the
    surrogates and the runes above 10FFFF (hexadecimal). *)
Definition utf8_width (s : string) : nat :=
  match s with
  | EmptyString => 0
  | String c0 r =>
      let n := N_of_ascii c0 in
      if (n <? 128)%N then 1
      else if byte_between 194 223 c0 then
        match r with
        | String c1 _ => if byte_between 128 191 c1 then 2 else 0
        | _ => 0
        end
      else if byte_between 224 239 c0 then
        match r with
        | String c1 (String c2 _) =>
            let lo := if (n =? 224)%N then 160%N else 128%N in
            let hi := if (n =? 237)%N then 159%N else 191%N in
            if byte_between lo hi c1 && byte_between 128 191 c2 then 3 else 0
        | _ => 0
        end
      else if byte_between 240 244 c0 then
        match r with
        | String c1 (String c2 (String c3 _)) =>
            let lo := if (n =? 240)%N then 144%N else 128%N in
            let hi := if (n =? 244)%N then 143%N else 191%N in
            if byte_between lo hi c1 && byte_between 128 191 c2
               && byte_between 128 191 c3 then 4 else 0
        | _ => 0
        end
      else 0
  end.

(** The rune after a [\u] whose four digits gave [r]: a high surrogate
    followed by an escaped low surrogate is one rune, any other
    surrogate is the replacement character. *)
Definition decode_escaped_rune (r : N) (rest : string) : N * string :=
  if is_surrogate r then
    match rest with
    | String c1 (String c2 rest') =>
        if Ascii.eqb c1 backslash && Ascii.eqb c2 "u" then
          match getu4 rest' with
          | Some (r2, rest'') =>
              if ((r <? 56320) && (56320 <=? r2) && (r2 <? 57344))%N
              then ((r - 55296) * 1024 + (r2 - 56320) + 65536, rest'')%N
              else (ReplacementChar, rest)
          | None => (ReplacementChar, rest)
          end
        else (ReplacementChar, rest)
    | _ => (ReplacementChar, rest)
    end
  else (r, rest).

(** The body of a string literal, after its opening quote: the decoded
    bytes and what follows the closing quote.  Bytes that are not
    well-formed UTF-8 are replaced, each by the replacement character. *)
Fixpoint unquote (fuel : nat) (s : string) : option (string * string) :=
  match fuel with
  | O => None
  | S fuel =>
      let continue (bytes : string) (rest : string) :=
        match unquote fuel rest with
        | Some (t, rest') => Some (bytes +:+ t, rest')
        | None => None
        end in
      match s with
      | EmptyString => None
      | String c r =>
          if Ascii.eqb c dquote then Some (EmptyString, r)
          else if Ascii.eqb c backslash then
            match r with
            | EmptyString => None
            | String e r' =>
                if Ascii.eqb e dquote then continue (byte_string dquote) r'
                else if Ascii.eqb e backslash then continue (byte_string backslash) r'
                else if Ascii.eqb e "/" then continue "/" r'
                else if Ascii.eqb e "b" then continue (byte_string "008") r'
                else if Ascii.eqb e "f" then continue (byte_string "012") r'
                else if Ascii.eqb e "n" then continue (byte_string "010") r'
                else if Ascii.eqb e "r" then continue (byte_string "013") r'
                else if Ascii.eqb e "t" then continue (byte_string "009") r'
                else if Ascii.eqb e "u" then
                  match getu4 r' with
                  | Some (u, r'') =>
                      let '(rune, rest) := decode_escaped_rune u r'' in
                      continue (utf8_EncodeRune rune) rest
                  | None => None
                  end
                else None
            end
          else if (N_of_ascii c <? 32)%N then None
          else
            match utf8_width s with
            | O => continue (utf8_EncodeRune ReplacementChar) r
            | S k => continue (take_bytes (S k) s) (drop_bytes (S k) s)
            end
      end
  end.

Fixpoint span_digits (s : string) : string * string :=
  match s with
  | String c r =>
      if is_digit c then let '(d, rest) := span_digits r in (String c d, rest)
      else (EmptyString, s)
  | EmptyString => (EmptyString, s)
  end.

(** A number literal: an optional minus sign, then either a single zero
    or a non-zero digit and more digits, then an optional fraction (a
    dot and digits) and an optional exponent (e or E, a sign, digits). *)
Definition scan_number (s : string) : option (string * string) :=
  let '(sign, s1) :=
    match s with
    | String "-" r => ("-", r)
    | _ => ("", s)
    end in
  let int_part :=
    match s1 with
    | String "0" r => Some ("0", r)
    | _ => match span_digits s1 with
           | (EmptyString, _) => None
           | (d, r) => Some (d, r)
           end
    end in
  match int_part with
  | None => None
  | Some (i, s2) =>
      let frac_part :=
        match s2 with
        | String "." r =>
            match span_digits r with
            | (EmptyString, _) => None
            | (d, r') => Some ("." +:+ d, r')
            end
        | _ => Some ("", s2)
        end in
      match frac_part with
      | None => None
      | Some (f, s3) =>
          let exp_part :=
            match s3 with
            | String e r =>
                if Ascii.eqb e "e" || Ascii.eqb e "E" then
                  let '(esign, r1) :=
                    match r with
                    | String "+" r' => ("+", r')
                    | String "-" r' => ("-", r')
                    | _ => ("", r)
                    end in
                  match span_digits r1 with
                  | (EmptyString, _) => None
                  | (d, r2) => Some (byte_string e +:+ esign +:+ d, r2)
                  end
                else Some ("", s3)
            | EmptyString => Some ("", s3)
            end in
          match exp_part with
          | None => None
          | Some (x, s4) => Some (sign +:+ i +:+ f +:+ x, s4)
          end
      end
  end.

(** Arrays and objects may be nested this deep and no deeper. *)
Definition maxNestingDepth : N := 10000.

(** One value, with the number literals read so far and the input that
    follows.  [fuel] bounds the number of values and members read; the
    length of the input plus one always suffices, since each of them
    consumes a character.  [depth] is the number of arrays and objects
    that are open around the value; [seen] are the number literals met
    before it, in the order of the text (a member that a later member of
    the same key replaces has been read all the same). *)
Fixpoint scan_value (fuel : nat) (depth : N) (seen : list string) (s : string)
  : option (Json * list string * string) :=
  match fuel with
  | O => None
  | S fuel =>
      match skip_space s with
      | EmptyString => None
      | String c r as t =>
          if Ascii.eqb c "{" then
            if (depth <? maxNestingDepth)%N then
              match skip_space r with
              | String "}" r' => Some (JObject ∅, seen, r')
              | _ => scan_members fuel (depth + 1) seen ∅ r
              end
            else None
          else if Ascii.eqb c "[" then
            if (depth <? maxNestingDepth)%N then
              match skip_space r with
              | String "]" r' => Some (JArray [], seen, r')
              | _ => scan_elements fuel (depth + 1) seen [] r
              end
            else None
          else if Ascii.eqb c dquote then
            match unquote (String.length r) r with
            | Some (str, r') => Some (JString str, seen, r')
            | None => None
            end
          else if has_prefix "true" t then Some (JBool true, seen, drop_bytes 4 t)
          else if has_prefix "false" t then Some (JBool false, seen, drop_bytes 5 t)
          else if has_prefix "null" t then Some (JNull, seen, drop_bytes 4 t)
          else
            match scan_number t with
            | Some (lit, r') => Some (JNumber lit, seen ++ [lit], r')
            | None => None
            end
      end
  end
with scan_elements (fuel : nat) (depth : N) (seen : list string) (acc : list Json)
    (s : string) : option (Json * list string * string) :=
  match fuel with
  | O => None
  | S fuel =>
      match scan_value fuel depth seen s with
      | Some (v, seen, r) =>
          match skip_space r with
          | String "," r' => scan_elements fuel depth seen (acc ++ [v]) r'
          | String "]" r' => Some (JArray (acc ++ [v]), seen, r')
          | _ => None
          end
      | None => None
      end
  end
with scan_members (fuel : nat) (depth : N) (seen : list string)
    (acc : gmap string Json) (s : string) : option (Json * list string * string) :=
  match fuel with
  | O => None
  | S fuel =>
      match skip_space s with
      | String c r =>
          if Ascii.eqb c dquote then
            match unquote (String.length r) r with
            | Some (key, r1) =>
                match skip_space r1 with
                | String ":" r2 =>
                    match scan_value fuel depth seen r2 with
                    | Some (v, seen, r3) =>
                        match skip_space r3 with
                        | String "," r4 => scan_members fuel depth seen (<[key := v]> acc) r4
                        | String "}" r4 => Some (JObject (<[key := v]> acc), seen, r4)
                        | _ => None
                        end
                    | None => None
                    end
                | _ => None
                end
            | None => None
            end
          else None
      | EmptyString => None
      end
  end.

(** A whole document: one value, surrounded by white space only; with it,
    the number literals of the text in their order. *)
Definition scan (data : string) : option (Json * list string) :=
  match scan_value (S (String.length data)) 0 [] data with
  | Some (v, seen, rest) =>
      match skip_space rest with
      | EmptyString => Some (v, seen)
      | String _ _ => None
      end
  | None => None
  end.

Definition decode (data : string) : option Json := fst <$> scan data.

(** The number literals of a document, in the order of the text. *)
Definition numbers (data : string) : list string :=
  match scan data with
  | Some (_, seen) => seen
  | None => []
  end.

End json.

(** ** The data model *)

(** Modelled from the spec: the declaration of [NotificationChannelConfig]
    is not among the sources.  The spec's data model gives its fields: UID,
    Name, Type, Settings (an opaque key-value document), SecureSettings
    (an opaque encrypted key-value document) and DisableResolveMessage.
    Settings is a [simplejson] document; SecureSettings maps a key to its
    encrypted bytes. *)
Module NotificationChannelConfig.
Record t : Type := mk {
  UID : string;
  Name : string;
  Type_ : string;
  DisableResolveMessage : bool;
  Settings : Json;
  SecureSettings : gmap string string
}.
End NotificationChannelConfig.

(** Go's [error] values, as far as the channel meets them: [errors.New],
    the [receiverInitError] struct, and the two errors of
    [json.Unmarshal].  A transport error is any value of this type. *)
Inductive error : Type :=
| errors_New (text : string)
| receiverInitError (Reason : string) (Cfg : NotificationChannelConfig.t)
| json_SyntaxError
| json_UnmarshalTypeError (Value : string) (GoType : string).

Inductive Level : Type := LvlDebug | LvlInfo | LvlWarn | LvlError.

Inductive LogValue : Type :=
| LogString (s : string)
| LogErr (e : error).

Record Context : Type := {
  ctx_values : gmap string string;
  ctx_done : bool
}.

Definition context_Background : Context :=
  {| ctx_values := ∅; ctx_done := false |}.

Module models.

(** The command handed to the webhook sender; its declaration is not
    among the sources, the fields are the ones [Notify] fills in. *)
Record SendWebhookSync : Type := {
  Url : string;
  User : string;
  Password : string;
  HttpMethod : string;
  HttpHeader : gmap string string;
  Body : string
}.

Record AlertNotification : Type := {
  Uid : string;
  Name : string;
  Type_ : string;
  DisableResolveMessage : bool;
  Settings : Json
}.

End models.

(** What a call does to the outside, in the order it does it. *)
Inductive Event : Type :=
| Decrypted (key : string)
| Logged (logger : string) (lvl : Level) (msg : string)
         (ctx : list (string * LogValue))
| Sent (cmd : models.SendWebhookSync) (answer : option error).

Module notifications.
(** The webhook sender is an external collaborator.  Its answer may
    depend on the command and on everything that happened before. *)
Record WebhookSender : Type := {
  SendWebhookSync : Context → models.SendWebhookSync → list Event → option error
}.
End notifications.

(** The type of the decrypt function handed to a factory. *)
Definition GetDecryptedValueFn : Type :=
  Context → gmap string string → string → string → string.

Module types.
(** An alert as the evaluation engine produces it. *)
Record Alert : Type := {
  Labels : gmap string string;
  Annotations : gmap string string;
  StartsAt : Z;
  EndsAt : Z
}.
End types.

Module template.
(** The shared template engine: the external base URL and the named
    template definitions it was loaded with. *)
Record Template : Type := {
  ExternalURL : string;
  definitions : gmap string string
}.
End template.

Record Logger : Type := { logger_name : string }.

(** Modelled from the spec: [Base] and [NewBase] are not among the
    sources.  Every notifier embeds UID, Name, Type and
    DisableResolveMessage, copied from the receiver's model. *)
Module Base.
Record t : Type := mk {
  Name : string;
  Type_ : string;
  UID : string;
  DisableResolveMessage : bool
}.
Definition GetDisableResolveMessage (b : t) : bool := DisableResolveMessage b.
End Base.

Definition NewBase (model : models.AlertNotification) : Base.t :=
  {| Base.Name := models.Name model;
     Base.Type_ := models.Type_ model;
     Base.UID := models.Uid model;
     Base.DisableResolveMessage := models.DisableResolveMessage model |}.

Module AirflowConfig.
Record t : Type := mk {
  NotificationChannelConfig_ : NotificationChannelConfig.t;
  URL : string;
  DagID : string;
  User : string;
  Password : string;
  RunId : string;
  LogicalDate : string;
  State : string;
  Conf : string
}.
End AirflowConfig.

(** AirflowNotifier is responsible for sending alert notifications to
    Airflow. *)
Record AirflowNotifier : Type := {
  Base_ : Base.t;
  URL : string;
  DagID : string;
  User : string;
  Password : string;
  RunId : string;
  LogicalDate : string;
  State : string;
  Conf : string;
  log_ : Logger;
  ns : notifications.WebhookSender;
  tmpl : template.Template
}.

Record FactoryConfig : Type := {
  Config : NotificationChannelConfig.t;
  NotificationService : notifications.WebhookSender;
  DecryptFunc : GetDecryptedValueFn;
  Template : template.Template
}.

(** ** Effects *)

(** A notifier is used through a pointer: the heap holds the notifiers
    that were constructed, the journal what was done to the outside. *)
Record World : Type := {
  journal : list Event;
  heap : gmap positive AirflowNotifier
}.

Definition record (evs : list Event) (w : World) : World :=
  {| journal := journal w ++ evs; heap := heap w |}.

(** A Go call either returns or panics. *)
Inductive Outcome (A : Type) : Type :=
| Returned (a : A)
| Panicked (reason : string).
Arguments Returned {A} a.
Arguments Panicked {A} reason.

Definition Go (A : Type) : Type := World → Outcome A * World.

#[export] Instance Go_ret : MRet Go := λ A a w, (Returned a, w).
#[export] Instance Go_bind : MBind Go := λ A B f m w,
  match m w with
  | (Returned a, w') => f a w'
  | (Panicked r, w') => (Panicked r, w')
  end.

Definition emit (e : Event) : Go unit := λ w, (Returned tt, record [e] w).
Definition panic {A : Type} (reason : string) : Go A := λ w, (Panicked reason, w).

(** [&AirflowNotifier{...}]: a new cell of the heap. *)
Definition new (an : AirflowNotifier) : Go positive :=
  λ w, let p := fresh (dom (heap w)) in
       (Returned p, {| journal := journal w; heap := <[p := an]> (heap w) |}).

(** Reading through a pointer. *)
Definition load (p : positive) : Go AirflowNotifier :=
  λ w, match heap w !! p with
       | Some an => (Returned an, w)
       | None => (Panicked "invalid memory address or nil pointer dereference", w)
       end.

(** [m[key] = val] on a map that may be nil. *)
Definition map_assign (m : option (gmap string Json)) (key : string) (val : Json)
  : Go (gmap string Json) :=
  match m with
  | Some m => mret (<[key := val]> m)
  | None => panic "assignment to entry in nil map"
  end.

Module http.
Definition MethodPost : string := "POST".
End http.

Module log.
Definition New (name : string) : Logger := {| logger_name := name |}.
Definition Debug (l : Logger) (msg : string) (ctx : list (string * LogValue)) : Go unit :=
  emit (Logged (logger_name l) LvlDebug msg ctx).
Definition Error (l : Logger) (msg : string) (ctx : list (string * LogValue)) : Go unit :=
  emit (Logged (logger_name l) LvlError msg ctx).
End log.

(** What has happened so far.  A collaborator whose code is not among the
    sources is handed it with its arguments: what it answers may depend
    on the moment of the call. *)
Definition history : Go (list Event) := λ w, (Returned (journal w), w).

Definition call_SendWebhookSync (ns : notifications.WebhookSender) (ctx : Context)
    (cmd : models.SendWebhookSync) : Go (option error) :=
  λ w, let answer := notifications.SendWebhookSync ns ctx cmd (journal w) in
       (Returned answer, record [Sent cmd answer] w).

Definition call_decrypt (f : GetDecryptedValueFn) (ctx : Context)
    (sjd : gmap string string) (key fallback : string) : Go string :=
  λ w, (Returned (f ctx sjd key fallback), record [Decrypted key] w).

(** ** Encoding, and decoding into a map *)

Module encoding_json.

Definition hex_digit (n : N) : ascii :=
  (if n <? 10 then ascii_of_N (48 + n) else ascii_of_N (87 + n))%N.

Definition escape_u00 (c : ascii) : string :=
  let n := N_of_ascii c in
  byte_string backslash +:+ "u00" +:+
  byte_string (hex_digit (n / 16)) +:+ byte_string (hex_digit (n mod 16)).

(** The escapes of [json.Marshal], which also escapes the HTML
    characters and the two Unicode line separators, and writes the
    escaped replacement character for every byte that is not part of
    well-formed UTF-8.  [pass] counts the bytes still to be copied of a
    rune that was found well-formed. *)
Fixpoint escape_from (pass : nat) (s : string) : string :=
  match pass, s with
  | _, EmptyString => EmptyString
  | S k, String c r => String c (escape_from k r)
  | O, String "226" (String "128" (String "168" r)) =>
      byte_string backslash +:+ "u2028" +:+ escape_from 0 r
  | O, String "226" (String "128" (String "169" r)) =>
      byte_string backslash +:+ "u2029" +:+ escape_from 0 r
  | O, String c r =>
      let n := N_of_ascii c in
      if (n <? 128)%N then
        if Ascii.eqb c dquote || Ascii.eqb c backslash
        then String backslash (String c (escape_from 0 r))
        else if (n =? 10)%N then String backslash (String "n" (escape_from 0 r))
        else if (n =? 13)%N then String backslash (String "r" (escape_from 0 r))
        else if (n =? 9)%N then String backslash (String "t" (escape_from 0 r))
        else if (n <? 32)%N || Ascii.eqb c "<" || Ascii.eqb c ">" || Ascii.eqb c "&"
        then escape_u00 c +:+ escape_from 0 r
        else String c (escape_from 0 r)
      else
        match json.utf8_width s with
        | O => byte_string backslash +:+ "ufffd" +:+ escape_from 0 r
        | S k => String c (escape_from k r)
        end
  end.

Definition escape (s : string) : string := escape_from 0 s.

Definition quote (s : string) : string :=
  String dquote (escape s +:+ byte_string dquote).

Definition key_le (a b : string) : Prop := String.leb a b = true.
#[export] Instance key_le_dec (a b : string) : Decision (key_le a b) :=
  decide (String.leb a b = true).

(** The keys of a map in the order [json.Marshal] writes them. *)
Definition sorted_keys {A : Type} (m : gmap string A) : list string :=
  merge_sort key_le (fst <$> map_to_list m).

(** The compact text of a document; the members of an object are
    written in the order of their keys, and a number by the text that
    stands for it. *)
Fixpoint encode (j : Json) : string :=
  match j with
  | JNull => "null"
  | JBool b => if b then "true" else "false"
  | JNumber lit => lit
  | JString s => quote s
  | JArray l => "[" +:+ string_join "," (encode <$> l) +:+ "]"
  | JObject m =>
      let texts := encode <$> m in
      "{" +:+
      string_join ","
        ((λ k, quote k +:+ ":" +:+ default "" (texts !! k)) <$> sorted_keys texts)
      +:+ "}"
  end.

(** [json.Marshal] fails only on values of unsupported types (channels,
    functions, NaN); a [Json] is none of them. *)
Definition Marshal (j : Json) : string * option error := (encode j, None).

Definition kind_name (j : Json) : string :=
  match j with
  | JNull => "null"
  | JBool _ => "bool"
  | JNumber _ => "number"
  | JString _ => "string"
  | JArray _ => "array"
  | JObject _ => "object"
  end.

(** A value of the text as an [interface{}] holds it: every number is
    converted to [float64], and a number outside the range of [float64]
    leaves nil in its place. *)
Fixpoint to_interface `{Float64} (j : Json) : Json :=
  match j with
  | JNumber lit =>
      match float64_text lit with
      | Some text => JNumber text
      | None => JNull
      end
  | JArray l => JArray (to_interface <$> l)
  | JObject m => JObject (to_interface <$> m)
  | _ => j
  end.

(** The first number literal that is outside the range of [float64]. *)
Fixpoint first_out_of_range `{Float64} (numbers : list string) : option string :=
  match numbers with
  | [] => None
  | lit :: rest =>
      match float64_text lit with
      | Some _ => first_out_of_range rest
      | None => Some lit
      end
  end.

(** [json.Unmarshal(data, &v)] for [v] of type [map[string]interface{}]:
    the new value of [v] and the error.  Invalid text leaves [v] alone
    and is a syntax error; [null] sets [v] to nil without an error; an
    object is stored into the map [v] holds, or into a new one when [v]
    is nil, and the first of its numbers that is outside the range of
    [float64] is reported as a type error after the whole object has
    been stored; any other value leaves [v] alone and is a type error. *)
Definition Unmarshal `{Float64} (data : string) (v : option (gmap string Json))
  : option (gmap string Json) * option error :=
  match json.scan data with
  | None => (v, Some json_SyntaxError)
  | Some (JNull, _) => (None, None)
  | Some (JObject m, numbers) =>
      (Some ((to_interface <$> m) ∪ default ∅ v),
       match first_out_of_range numbers with
       | Some lit => Some (json_UnmarshalTypeError ("number " +:+ lit) "float64")
       | None => None
       end)
  | Some (other, _) =>
      (v, Some (json_UnmarshalTypeError (kind_name other) "map[string]interface {}"))
  end.

End encoding_json.

(** ** simplejson *)

(** Modelled from the spec: the [simplejson] package is not among the
    sources.  The spec calls a settings document an opaque key-value
    document whose keys may be missing; the functions below are the
    accessors [airflow.go] calls on it. *)
Module simplejson.

(** [New()] is an empty object. *)
Definition New : Json := JObject ∅.

(** [j.Get(key)]: the member of an object, and a nil document for a
    missing key or for a document that is not an object. *)
Definition Get (j : Json) (key : string) : Json :=
  match j with
  | JObject m => default JNull (m !! key)
  | _ => JNull
  end.

(** [j.String()]: a type assertion to string. *)
Definition String_ (j : Json) : string * option error :=
  match j with
  | JString s => (s, None)
  | _ => ("", Some (errors_New "type assertion to string failed"))
  end.

(** [j.MustString()] without a default: the empty string for anything
    that is not a string. *)
Definition MustString (j : Json) : string :=
  match String_ j with
  | (s, None) => s
  | (_, Some _) => ""
  end.

(** [j.Set(key, val)] stores into an object and does nothing to any
    other document. *)
Definition Set_ (j : Json) (key : string) (val : Json) : Json :=
  match j with
  | JObject m => JObject (<[key := val]> m)
  | _ => j
  end.

Definition MarshalJSON (j : Json) : string * option error :=
  encoding_json.Marshal j.

End simplejson.

(** ** The channels package *)

(** The parts of the channels package that [airflow.go] uses and that are
    not among the sources, together with the conversion of numbers.
    [TmplText past ctx tmpl as l] is the rendering closure: applied to a
    template text and to the error captured so far it gives the rendered
    text and the error captured afterwards.  [joinUrlPath past] joins a
    base URL and a path.  Nothing is assumed of the two functions: what
    they return may depend on the context, on the batch and, through
    [past], on everything that happened before the call, as the answer of
    a function that reads the clock does.  The two constants are the
    default title and body templates. *)
Class Package : Type := {
  strconv :: Float64;
  TmplText : list Event → Context → template.Template → list types.Alert → Logger →
             string → option error → string * option error;
  joinUrlPath : list Event → string → string → Logger → string;
  DefaultMessageTitleEmbed : string;
  DefaultMessageEmbed : string
}.


Definition airflowUrl : string := "%s/api/v1/dags/%s/dagRuns".

Definition NewAirflowConfig (config : NotificationChannelConfig.t)
    (decryptFunc : GetDecryptedValueFn)
  : Go (option AirflowConfig.t * option error) :=
  let settings := NotificationChannelConfig.Settings config in
  let dagId := simplejson.MustString (simplejson.Get settings "dagId") in
  if decide (dagId = "") then
    mret (None, Some (errors_New "Could not find DAG ID property in settings"))
  else
  let url := simplejson.MustString (simplejson.Get settings "url") in
  if decide (url = "") then
    mret (None, Some (errors_New "Could not find url property in settings"))
  else
  password ← call_decrypt decryptFunc context_Background
               (NotificationChannelConfig.SecureSettings config) "password"
               (simplejson.MustString (simplejson.Get settings "password"));
  let userName := simplejson.MustString (simplejson.Get settings "username") in
  let runId := simplejson.MustString (simplejson.Get settings "runId") in
  let logicalDate := simplejson.MustString (simplejson.Get settings "logicalDate") in
  let state := simplejson.MustString (simplejson.Get settings "state") in
  let conf := gostrings.ReplaceAll
                (simplejson.MustString (simplejson.Get settings "conf"))
                (byte_string squote) (byte_string dquote) in
  mret (Some {| AirflowConfig.NotificationChannelConfig_ := config;
                AirflowConfig.URL := url;
                AirflowConfig.DagID := dagId;
                AirflowConfig.User := userName;
                AirflowConfig.Password := password;
                AirflowConfig.RunId := runId;
                AirflowConfig.LogicalDate := logicalDate;
                AirflowConfig.State := state;
                AirflowConfig.Conf := conf |}, None).

(** [err.Error()].  Modelled from the spec for [receiverInitError], whose
    method is not among the sources: the reason is wrapped with the
    receiver's name and type. *)
Definition error_Error (e : error) : string :=
  match e with
  | errors_New text => text
  | receiverInitError reason cfg =>
      "failed to validate receiver " +:+ NotificationChannelConfig.Name cfg +:+
      " of type " +:+ NotificationChannelConfig.Type_ cfg +:+ ": " +:+ reason
  | json_SyntaxError => "invalid character"
  | json_UnmarshalTypeError v t =>
      "json: cannot unmarshal " +:+ v +:+ " into Go value of type " +:+ t
  end.

(** NewAirflowNotifier is the constructor for the Airflow notifier. *)
Definition NewAirflowNotifier (config : AirflowConfig.t)
    (ns : notifications.WebhookSender) (t : template.Template) : Go positive :=
  let c := AirflowConfig.NotificationChannelConfig_ config in
  new {| Base_ := NewBase {|
           models.Uid := NotificationChannelConfig.UID c;
           models.Name := NotificationChannelConfig.Name c;
           models.Type_ := NotificationChannelConfig.Type_ c;
           models.DisableResolveMessage :=
             NotificationChannelConfig.DisableResolveMessage c;
           models.Settings := NotificationChannelConfig.Settings c |};
         URL := AirflowConfig.URL config;
         DagID := AirflowConfig.DagID config;
         User := AirflowConfig.User config;
         Password := AirflowConfig.Password config;
         RunId := AirflowConfig.RunId config;
         LogicalDate := AirflowConfig.LogicalDate config;
         State := AirflowConfig.State config;
         Conf := AirflowConfig.Conf config;
         log_ := log.New "alerting.notifier.airflow";
         ns := ns;
         tmpl := t |}.

(** The factory returns the notifier as a [NotificationChannel]: a pointer,
    or nil together with the error. *)
Definition AirflowFactory (fc : FactoryConfig)
  : Go (option positive * option error) :=
  r ← NewAirflowConfig (Config fc) (DecryptFunc fc);
  match r with
  | (_, Some err) =>
      mret (None, Some (receiverInitError (error_Error err) (Config fc)))
  | (Some cfg, None) =>
      p ← NewAirflowNotifier cfg (NotificationService fc) (Template fc);
      mret (Some p, None)
  | (None, None) => panic "invalid memory address or nil pointer dereference"
  end.

Section Notify.
Context `{Package}.

(** Notify sends an alert notification to Airflow.  The values of the
    map literal [content] are evaluated in the order written, the
    rendering closure threading the captured template error; [past] is
    the moment at which the two helpers are called. *)
Definition Notify (an : positive) (ctx : Context) (as_ : list types.Alert)
  : Go (bool * option error) :=
  an ← load an;
  _ ← log.Debug (log_ an) "executing airflow notification"
        [("notification", LogString (Base.Name (Base_ an)))];
  let conf : option (gmap string Json) := None in
  let '(conf, err) := encoding_json.Unmarshal (Conf an) conf in
  let conf := match err with
              | Some _ => Some ∅
              | None => conf
              end in
  let tmplErr : option error := None in
  past ← history;
  let tmpl_ := TmplText past ctx (tmpl an) as_ (log_ an) in
  let client_url :=
    joinUrlPath past (template.ExternalURL (tmpl an)) "/alerting/list" (log_ an) in
  let '(description, tmplErr) := tmpl_ DefaultMessageTitleEmbed tmplErr in
  let '(details, tmplErr) := tmpl_ DefaultMessageEmbed tmplErr in
  let content : gmap string string :=
    {[ "client" := "Grafana";
       "client_url" := client_url;
       "description" := description;
       "details" := details ]} in
  conf ← map_assign conf "trigger" (JObject (JString <$> content));
  let bodyJSON := simplejson.New in
  let bodyJSON := if decide (RunId an ≠ "")
                  then simplejson.Set_ bodyJSON "dag_run_id" (JString (RunId an))
                  else bodyJSON in
  let bodyJSON := if decide (LogicalDate an ≠ "")
                  then simplejson.Set_ bodyJSON "logical_date" (JString (LogicalDate an))
                  else bodyJSON in
  let bodyJSON := if decide (State an ≠ "")
                  then simplejson.Set_ bodyJSON "state" (JString (State an))
                  else bodyJSON in
  let bodyJSON := simplejson.Set_ bodyJSON "conf" (JObject conf) in
  match simplejson.MarshalJSON bodyJSON with
  | (_, Some err) => mret (false, Some err)
  | (body, None) =>
      let endPoint := fmt.Sprintf airflowUrl [URL an; DagID an] in
      let cmd := {| models.Url := endPoint;
                    models.User := User an;
                    models.Password := Password an;
                    models.HttpMethod := http.MethodPost;
                    models.HttpHeader := {[ "Content-Type" := "application/json";
                                            "Accept" := "application/json" ]};
                    models.Body := body |} in
      err ← call_SendWebhookSync (ns an) ctx cmd;
      match err with
      | Some err =>
          _ ← log.Error (log_ an) "failed to send notification to Airflow"
                [("err", LogErr err); ("body", LogString body)];
          mret (false, Some err)
      | None => mret (true, None)
      end
  end.

Definition SendResolved (an : positive) : Go bool :=
  an ← load an;
  mret (negb (Base.GetDisableResolveMessage (Base_ an))).

End Notify.

(** ** A concrete package and the spec's scenarios *)

Module Scenario.

Definition quoted (s : string) : string :=
  byte_string dquote +:+ s +:+ byte_string dquote.

(** A small template executor: the text followed by the name of the
    first alert; an alert without a name stops the rendering after the
    text, with an error. *)
Definition ExecuteTextString (text : string) (as_ : list types.Alert)
  : string * option error :=
  match as_ with
  | [] => (text, None)
  | a :: _ =>
      match types.Labels a !! "alertname" with
      | Some n => (text +:+ " " +:+ n, None)
      | None => (text, Some (errors_New "template: no entry for key alertname"))
      end
  end.

(** Modelled from the spec: the rendering closure gives the best-effort
    partial output and keeps the first error it met in the side
    channel. *)
Definition render_closure (past : list Event) (ctx : Context) (t : template.Template)
    (as_ : list types.Alert) (l : Logger) (name : string)
    (tmplErr : option error) : string * option error :=
  match tmplErr with
  | Some e => ("", Some e)
  | None => ExecuteTextString name as_
  end.

Fixpoint trim_slash (s : string) : string :=
  match s with
  | EmptyString => EmptyString
  | String c r =>
      match trim_slash r with
      | EmptyString => if Ascii.eqb c "/" then EmptyString else byte_string c
      | t => String c t
      end
  end.

Definition join_url (past : list Event) (base additionalPath : string) (l : Logger)
  : string :=
  trim_slash base +:+ additionalPath.

Fixpoint all_digits (s : string) : bool :=
  match s with
  | EmptyString => true
  | String c r => json.is_digit c && all_digits r
  end.

(** The conversion of numbers on the integer literals of at most fifteen
    digits, where it is exact: such an integer is a [float64], and
    [json.Marshal] writes it back digit for digit.  The scenarios hold no
    other number; any other literal is refused here. *)
Definition small_integer (lit : string) : option string :=
  let digits := match lit with
                | String "-" r => r
                | _ => lit
                end in
  let no_leading_zero := match digits with
                         | String "0" (String _ _) => false
                         | _ => true
                         end in
  if all_digits digits && no_leading_zero
     && bool_decide (0 < String.length digits ≤ 15)
  then Some lit else None.

#[export] Instance floats : Float64 := {| float64_text := small_integer |}.

#[export] Instance package : Package := {|
  strconv := floats;
  TmplText := render_closure;
  joinUrlPath := join_url;
  DefaultMessageTitleEmbed := "{{ template " +:+ quoted "default.title" +:+ " . }}";
  DefaultMessageEmbed := "{{ template " +:+ quoted "default.message" +:+ " . }}"
|}.

Definition sender (answer : option error) : notifications.WebhookSender :=
  {| notifications.SendWebhookSync := λ _ _ _, answer |}.

Definition engine : template.Template :=
  {| template.ExternalURL := "http://localhost"; template.definitions := ∅ |}.

Definition receiver (settings : gmap string Json) : NotificationChannelConfig.t :=
  {| NotificationChannelConfig.UID := "";
     NotificationChannelConfig.Name := "airflow_testing";
     NotificationChannelConfig.Type_ := "airflow";
     NotificationChannelConfig.DisableResolveMessage := false;
     NotificationChannelConfig.Settings := JObject settings;
     NotificationChannelConfig.SecureSettings := ∅ |}.

Definition no_decrypt : GetDecryptedValueFn := λ _ _ _ fallback, fallback.

Definition alert1 : types.Alert :=
  {| types.Labels := {[ "alertname" := "alert1"; "lbl1" := "val1" ]};
     types.Annotations := {[ "ann1" := "annv1" ]};
     types.StartsAt := 0; types.EndsAt := 0 |}.

Definition start : World := {| journal := []; heap := ∅ |}.

Definition settingsA : gmap string Json :=
  {[ "url" := JString "http://localhost"; "dagId" := JString "somedag" ]}.

Definition factory (settings : gmap string Json) (answer : option error) : FactoryConfig :=
  {| Config := receiver settings;
     NotificationService := sender answer;
     DecryptFunc := no_decrypt;
     Template := engine |}.

(** Construct, then notify once. *)
Definition construct_and_notify (settings : gmap string Json)
    (answer : option error) (as_ : list types.Alert) : Go (bool * option error) :=
  r ← AirflowFactory (factory settings answer);
  match r with
  | (Some an, _) => Notify an context_Background as_
  | (None, _) => panic "no notifier"
  end.

(** An alert without a name, on which the executor above fails. *)
Definition unnamed_alert : types.Alert :=
  {| types.Labels := {[ "lbl1" := "val1" ]};
     types.Annotations := ∅;
     types.StartsAt := 0; types.EndsAt := 0 |}.

(** A notifier as the factory builds it for [settingsA] extended with a
    run identifier and a conf text, and a world that holds it at the
    address 1. *)
Definition notifier (runId conf : string) (answer : option error) : AirflowNotifier :=
  {| Base_ := {| Base.Name := "airflow_testing"; Base.Type_ := "airflow";
                 Base.UID := ""; Base.DisableResolveMessage := false |};
     URL := "http://localhost";
     DagID := "somedag";
     User := "";
     Password := "";
     RunId := runId;
     LogicalDate := "";
     State := "";
     Conf := conf;
     log_ := log.New "alerting.notifier.airflow";
     ns := sender answer;
     tmpl := engine |}.

Definition world_of (an : AirflowNotifier) : World :=
  {| journal := []; heap := {[ 1%positive := an ]} |}.

Definition refused : error := errors_New "connection refused".

Fixpoint repeated (n : nat) (s rest : string) : string :=
  match n with
  | O => rest
  | S k => s +:+ repeated k s rest
  end.

(** The text of [n] arrays, each inside the one before. *)
Definition nested_arrays (n : nat) : string :=
  repeated n "[" (repeated n "]" "").

Definition byte (n : N) : string := byte_string (ascii_of_N n).

(** The conf text of an object with the members [a] and [b], given by
    the texts of their values. *)
Definition conf_a_b (a b : string) : string :=
  "{" +:+ quoted "a" +:+ ":" +:+ a +:+ "," +:+ quoted "b" +:+ ":" +:+ b +:+ "}".

(** The conf text of an object that gives the member [a] twice. *)
Definition conf_a_a (first second : string) : string :=
  "{" +:+ quoted "a" +:+ ":" +:+ first +:+ "," +:+ quoted "a" +:+ ":" +:+ second +:+ "}".

(** The group labels of a batch travel in the context: the dispatcher
    puts them there with [notify.WithGroupLabels], as the test of the
    channel does before it calls [Notify]. *)
Definition WithGroupLabels (ctx : Context) (labels : string) : Context :=
  {| ctx_values := <["groupLabels" := labels]> (ctx_values ctx);
     ctx_done := ctx_done ctx |}.

Definition GroupLabels (ctx : Context) : string :=
  default "" (ctx_values ctx !! "groupLabels").

(** A rendering closure that writes the group labels of the context
    after the text it renders. *)
Definition render_grouped (past : list Event) (ctx : Context) (t : template.Template)
    (as_ : list types.Alert) (l : Logger) (name : string)
    (tmplErr : option error) : string * option error :=
  match tmplErr with
  | Some e => ("", Some e)
  | None =>
      let '(text, e) := ExecuteTextString name as_ in
      (text +:+ " " +:+ GroupLabels ctx, e)
  end.

Definition grouped : Package := {|
  strconv := floats;
  TmplText := render_grouped;
  joinUrlPath := join_url;
  DefaultMessageTitleEmbed := "{{ template " +:+ quoted "default.title" +:+ " . }}";
  DefaultMessageEmbed := "{{ template " +:+ quoted "default.message" +:+ " . }}"
|}.

End Scenario.

(** * The other models of the repository *)

(** ** Correlations *)

Module correlations.

Definition ErrInvalidConfigType : error := errors_New "invalid correlation config type".

(** [CorrelationConfigType] is a string type with one constant. *)
Definition CorrelationConfigType : Type := string.
Definition ConfigTypeQuery : CorrelationConfigType := "query".

(** [fmt.Errorf] with the verbs [%s] only builds an error whose text is
    the formatted string; an error operand is printed by its [Error]
    method. *)
Definition Errorf (format : string) (args : list string) : error :=
  errors_New (fmt.Sprintf format args).

Definition CorrelationConfigType_Validate (t : CorrelationConfigType) : option error :=
  if decide (t ≠ ConfigTypeQuery) then
    Some (Errorf ("%s: " +:+ byte_string dquote +:+ "%s" +:+ byte_string dquote)
            [error_Error ErrInvalidConfigType; t])
  else None.

Record CorrelationConfig : Type := {
  Field : string;
  Type_ : CorrelationConfigType;
  Target : option (gmap string Json)
}.

(** [json.Marshal] of a struct writes the fields in the order of their
    declaration. *)
Definition encode_struct (fields : list (string * Json)) : string :=
  "{" +:+
  string_join ","
    ((λ kv : string * Json,
        encoding_json.quote kv.1 +:+ ":" +:+ encoding_json.encode kv.2) <$> fields)
  +:+ "}".

Definition CorrelationConfig_MarshalJSON (c : CorrelationConfig) : string * option error :=
  let target := Target c in
  let target := match target with
                | None => ∅
                | Some m => m
                end in
  (encode_struct [("type", JString ConfigTypeQuery);
                  ("field", JString (Field c));
                  ("target", JObject target)], None).

Record CreateCorrelationCommand : Type := {
  SourceUID : string;
  OrgId : Z;
  SkipReadOnlyCheck : bool;
  TargetUID : option string;
  Label : string;
  Description : string;
  Config : CorrelationConfig
}.

Definition CreateCorrelationCommand_Validate (c : CreateCorrelationCommand)
  : option error :=
  match CorrelationConfigType_Validate (Type_ (Config c)) with
  | Some err => Some err
  | None =>
      if decide (TargetUID c = None ∧ Type_ (Config c) = ConfigTypeQuery) then
        Some (Errorf ("correlations of type " +:+ byte_string dquote +:+ "%s"
                      +:+ byte_string dquote +:+ " must have a targetUID")
                [ConfigTypeQuery])
      else None
  end.

End correlations.

(** ** Public dashboards *)

Module publicdashboards.

(** PublicDashboardErr represents a dashboard error. *)
Record PublicDashboardErr : Type := {
  StatusCode : Z;
  Status : string;
  Reason : string
}.

(** Error returns the error message. *)
Definition PublicDashboardErr_Error (e : PublicDashboardErr) : string :=
  if decide (Reason e ≠ "") then Reason e else "Dashboard Error".

Record TimeSettings : Type := {
  From : string;
  To : string
}.

Record PublicDashboard : Type := {
  Uid : string;
  DashboardUid : string;
  OrgId : Z;
  TimeSettings_ : option TimeSettings;
  IsEnabled : bool;
  AccessToken : string;
  CreatedBy : Z;
  UpdatedBy : Z;
  CreatedAt : Z;
  UpdatedAt : Z
}.

Definition PublicDashboard_TableName (pd : PublicDashboard) : string := "dashboard_public".

(** Modelled from the spec: [simplejson.GetPath] is not among the sources;
    it follows the keys of the path from the document inwards. *)
Definition GetPath (j : Json) (branch : list string) : Json :=
  foldl simplejson.Get j branch.

Definition FormatInt10 (i : Z) : string :=
  DecimalString.NilZero.string_of_int (Z.to_int i).

Section BuildTimeSettings.
(** The time range of [legacydata], which is not among the sources: a
    range is built from the two texts and from the clock, and gives its
    two ends in milliseconds since the epoch. *)
Context {DataTimeRange : Type}.
Context (NewDataTimeRange : Z → string → string → DataTimeRange).
Context (GetFromAsMsEpoch GetToAsMsEpoch : DataTimeRange → Z).

(** Build the time settings object from the JSON of the dashboard; [now]
    is the clock read by [NewDataTimeRange]. *)
Definition BuildTimeSettings (pd : PublicDashboard) (dashboard_Data : Json) (now : Z)
  : TimeSettings :=
  let from := simplejson.MustString (GetPath dashboard_Data ["time"; "from"]) in
  let to := simplejson.MustString (GetPath dashboard_Data ["time"; "to"]) in
  let timeRange := NewDataTimeRange now from to in
  let ts := {| From := FormatInt10 (GetFromAsMsEpoch timeRange);
               To := FormatInt10 (GetToAsMsEpoch timeRange) |} in
  match TimeSettings_ pd with
  | None => ts
  | Some _ => ts
  end.

End BuildTimeSettings.

End publicdashboards.

(** ** The rule editor page *)

Module RuleEditor.

(** A parsed rule identifier, as far as the page looks at it. *)
Record RuleIdentifier : Type := { ruleSourceName : string }.

Inductive PageState : Type := edit | add.

Record NavModelItem : Type := {
  icon : string;
  id : string;
  breadcrumbs : list (string * string);
  text : option string
}.

Definition defaultPageNav : NavModelItem :=
  {| icon := "bell";
     id := "alert-rule-view";
     breadcrumbs := [("Alert rules", "alerting/list")];
     text := None |}.

Definition getPageNav (state : PageState) : NavModelItem :=
  match state with
  | edit => {| icon := icon defaultPageNav;
               id := "alert-rule-edit";
               breadcrumbs := breadcrumbs defaultPageNav;
               text := Some "Edit rule" |}
  | add => {| icon := icon defaultPageNav;
              id := "alert-rule-add";
              breadcrumbs := breadcrumbs defaultPageNav;
              text := Some "Add rule" |}
  end.

(** What the page shows inside its wrapper. *)
Inductive Content : Type :=
| NoContent
| CannotCreateRules
| CannotEditRules
| ExistingRuleEditor (identifier : RuleIdentifier)
| AlertRuleForm.

Definition getContent (loading : bool) (identifier : option RuleIdentifier)
    (canCreateGrafanaRules canCreateCloudRules : bool)
    (canEditRules : string → bool) : Content :=
  if loading then NoContent
  else if bool_decide (identifier = None) && negb canCreateGrafanaRules
          && negb canCreateCloudRules
  then CannotCreateRules
  else match identifier with
       | Some i =>
           if negb (canEditRules (ruleSourceName i)) then CannotEditRules
           else ExistingRuleEditor i
       | None => AlertRuleForm
       end.

(** The page: the navigation entry handed to the wrapper and the content. *)
Definition RuleEditor (loading : bool) (identifier : option RuleIdentifier)
    (canCreateGrafanaRules canCreateCloudRules : bool)
    (canEditRules : string → bool) : NavModelItem * Content :=
  (getPageNav (if identifier is Some _ then edit else add),
   getContent loading identifier canCreateGrafanaRules canCreateCloudRules canEditRules).

End RuleEditor.

(** ** The header of a log context group *)

Module LogRowContext.

Inductive LogGroupPosition : Type := Bottom | Top.
Inductive LogsSortOrder : Type := Descending | Ascending.

(** The position in time of a group, from the ordering of the logs and the
    place of the group; a missing sort order is [None]. *)
Definition logGroupPosition (groupPosition : LogGroupPosition)
    (logsSortOrder : option LogsSortOrder) : string :=
  let logGroupPosition := "after" in
  match groupPosition with
  | Bottom =>
      match logsSortOrder with
      | Some Descending => "before"
      | _ => logGroupPosition
      end
  | Top =>
      match logsSortOrder with
      | Some Ascending => "before"
      | _ => logGroupPosition
      end
  end.

(** Whether the header shows the button that loads ten more lines;
    [rows_length] is the number of rows, a missing [canLoadMoreRows] is
    [None]. *)
Definition showsLoadMore (rows_length : nat) (canLoadMoreRows : option bool) : bool :=
  ((10 <=? rows_length)%nat
   || ((10 <? rows_length)%nat && negb (rows_length mod 10 =? 0)%nat))
  && default false canLoadMoreRows.

End LogRowContext.

(** * The vocabulary of the properties *)

(** The events a computation adds to the journal of the world it starts
    from. *)
Definition new_events {A : Type} (m : Go A) (w : World) : list Event :=
  drop (length (journal w)) (journal (m w).2).

(** The requests among some events, in the order they were sent. *)
Definition sent_commands (evs : list Event) : list models.SendWebhookSync :=
  omap (λ e, match e with Sent cmd _ => Some cmd | _ => None end) evs.

(** The entries of error severity among some events: their messages and
    fields. *)
Definition error_entries (evs : list Event)
  : list (string * list (string * LogValue)) :=
  omap (λ e, match e with
             | Logged _ LvlError msg ctx => Some (msg, ctx)
             | _ => None
             end) evs.

Definition replace_byte (old new c : ascii) : ascii :=
  if Ascii.eqb old c then new else c.

(** A setting read as a string, as [NewAirflowConfig] reads all of them. *)
Definition setting (config : NotificationChannelConfig.t) (key : string) : string :=
  simplejson.MustString (simplejson.Get (NotificationChannelConfig.Settings config) key).

(** The configuration [NewAirflowConfig] builds when both required
    settings are there. *)
Definition built_config (config : NotificationChannelConfig.t)
    (decryptFunc : GetDecryptedValueFn) : AirflowConfig.t :=
  {| AirflowConfig.NotificationChannelConfig_ := config;
     AirflowConfig.URL := setting config "url";
     AirflowConfig.DagID := setting config "dagId";
     AirflowConfig.User := setting config "username";
     AirflowConfig.Password :=
       decryptFunc context_Background
         (NotificationChannelConfig.SecureSettings config) "password"
         (setting config "password");
     AirflowConfig.RunId := setting config "runId";
     AirflowConfig.LogicalDate := setting config "logicalDate";
     AirflowConfig.State := setting config "state";
     AirflowConfig.Conf :=
       gostrings.ReplaceAll (setting config "conf")
         (byte_string squote) (byte_string dquote) |}.

(** Modelled from the spec: the decrypt function of the secrets service is
    not among the sources.  It uses the decrypted secure value if the
    secure-settings document contains the key, and otherwise falls back to
    the plaintext value it is given.  [decrypt] is the cipher. *)
Definition GetDecryptedValue (decrypt : string → string) : GetDecryptedValueFn :=
  λ ctx sjd key fallback,
    match sjd !! key with
    | Some encrypted => decrypt encrypted
    | None => fallback
    end.

(** ** What a Notify call builds *)

Section Vocabulary.
Context `{Package}.

(** The map [Notify] holds in [conf] before it adds the trigger: what
    [json.Unmarshal] left in the nil map, or an empty map when it
    returned an error. *)
Definition custom_conf (an : AirflowNotifier) : option (gmap string Json) :=
  let '(conf, err) := encoding_json.Unmarshal (Conf an) None in
  match err with
  | Some _ => Some ∅
  | None => conf
  end.

(** The members of that map in terms of the text of the setting, when
    the text is not the JSON null: the members of the object it holds,
    each as an [interface{}] holds it, when the text is a JSON object all
    of whose numbers are in the range of [float64]; and none in every
    other case. *)
Definition custom_members (an : AirflowNotifier) : gmap string Json :=
  match json.decode (Conf an) with
  | Some (JObject m) =>
      if decide (Forall (λ lit, is_Some (float64_text lit)) (json.numbers (Conf an)))
      then encoding_json.to_interface <$> m
      else ∅
  | _ => ∅
  end.

Definition debug_entry (an : AirflowNotifier) : Event :=
  Logged (logger_name (log_ an)) LvlDebug "executing airflow notification"
    [("notification", LogString (Base.Name (Base_ an)))].

(** The moment at which a call made in the world [w] calls the two
    helpers: after its first log entry. *)
Definition moment (an : AirflowNotifier) (w : World) : list Event :=
  journal w ++ [debug_entry an].

(** The rendered texts, the second one after the error of the first. *)
Definition rendered_description (an : AirflowNotifier) (past : list Event)
    (ctx : Context) (as_ : list types.Alert) : string * option error :=
  TmplText past ctx (tmpl an) as_ (log_ an) DefaultMessageTitleEmbed None.

Definition rendered_details (an : AirflowNotifier) (past : list Event)
    (ctx : Context) (as_ : list types.Alert) : string * option error :=
  TmplText past ctx (tmpl an) as_ (log_ an) DefaultMessageEmbed
    (rendered_description an past ctx as_).2.

Definition client_url (an : AirflowNotifier) (past : list Event) : string :=
  joinUrlPath past (template.ExternalURL (tmpl an)) "/alerting/list" (log_ an).

Definition trigger (an : AirflowNotifier) (past : list Event) (ctx : Context)
    (as_ : list types.Alert) : gmap string string :=
  {[ "client" := "Grafana";
     "client_url" := client_url an past;
     "description" := (rendered_description an past ctx as_).1;
     "details" := (rendered_details an past ctx as_).1 ]}.

Definition set_nonempty (key value : string) (m : gmap string Json)
  : gmap string Json :=
  if decide (value ≠ "") then <[key := JString value]> m else m.

(** The document [Notify] serializes, for the custom configuration
    [custom]. *)
Definition body_document (an : AirflowNotifier) (past : list Event) (ctx : Context)
    (as_ : list types.Alert) (custom : gmap string Json) : gmap string Json :=
  <["conf" := JObject (<["trigger" := JObject (JString <$> trigger an past ctx as_)]>
                         custom)]>
    (set_nonempty "state" (State an)
       (set_nonempty "logical_date" (LogicalDate an)
          (set_nonempty "dag_run_id" (RunId an) ∅))).

Definition request (an : AirflowNotifier) (past : list Event) (ctx : Context)
    (as_ : list types.Alert) (custom : gmap string Json) : models.SendWebhookSync :=
  {| models.Url := fmt.Sprintf airflowUrl [URL an; DagID an];
     models.User := User an;
     models.Password := Password an;
     models.HttpMethod := http.MethodPost;
     models.HttpHeader := {[ "Content-Type" := "application/json";
                             "Accept" := "application/json" ]};
     models.Body :=
       encoding_json.encode (JObject (body_document an past ctx as_ custom)) |}.

Definition error_entry (an : AirflowNotifier) (e : error) (body : string) : Event :=
  Logged (logger_name (log_ an)) LvlError "failed to send notification to Airflow"
    [("err", LogErr e); ("body", LogString body)].

(** The result of [Notify] for an answer of the sender. *)
Definition delivered (answer : option error) : bool * option error :=
  match answer with
  | Some e => (false, Some e)
  | None => (true, None)
  end.

Definition after_answer (an : AirflowNotifier) (cmd : models.SendWebhookSync)
    (answer : option error) : list Event :=
  match answer with
  | Some e => [error_entry an e (models.Body cmd)]
  | None => []
  end.



End Vocabulary.

(** * Properties *)

(** ** The journal and the heap *)

Lemma record_record (evs1 evs2 : list Event) (w : World) :
  record evs2 (record evs1 w) = record (evs1 ++ evs2) w.
Proof. unfold record; simpl. by rewrite app_assoc. Qed.

Lemma journal_record (evs : list Event) (w : World) :
  journal (record evs w) = journal w ++ evs.
Proof. reflexivity. Qed.

Lemma heap_record (evs : list Event) (w : World) :
  heap (record evs w) = heap w.
Proof. reflexivity. Qed.

Lemma drop_journal_record (evs : list Event) (w : World) :
  drop (length (journal w)) (journal (record evs w)) = evs.
Proof. rewrite journal_record. by rewrite drop_app_length. Qed.

(** ** strings.ReplaceAll with a pattern of one byte *)

Lemma ReplaceAll_byte (s : string) (old new : ascii) :
  gostrings.ReplaceAll s (byte_string old) (byte_string new)
  = string_map (replace_byte old new) s.
Proof.
  unfold gostrings.ReplaceAll, byte_string.
  induction s as [|c r IH]; [reflexivity|].
  cbn [gostrings.replace_from has_prefix string_map String.length].
  unfold replace_byte at 1.
  destruct (Ascii.eqb old c); cbn [andb Nat.sub String.append].
  - by rewrite IH.
  - by rewrite IH.
Qed.

Lemma string_map_length (f : ascii → ascii) (s : string) :
  String.length (string_map f s) = String.length s.
Proof. induction s as [|c r IH]; simpl; congruence. Qed.

Lemma string_count_replaced (old new : ascii) (s : string) :
  old ≠ new →
  string_count old (string_map (replace_byte old new) s) = 0.
Proof.
  intros Hne. induction s as [|c r IH]; [reflexivity|].
  cbn [string_map string_count]. rewrite IH. unfold replace_byte.
  destruct (Ascii.eqb_spec old c) as [->|Hc].
  - destruct (Ascii.eqb_spec c new); [done | reflexivity].
  - destruct (Ascii.eqb_spec old c); [done | reflexivity].
Qed.

Lemma string_count_replacement (old new : ascii) (s : string) :
  old ≠ new →
  string_count new (string_map (replace_byte old new) s)
  = string_count new s + string_count old s.
Proof.
  intros Hne. induction s as [|c r IH]; [reflexivity|].
  cbn [string_map string_count]. rewrite IH. unfold replace_byte.
  destruct (Ascii.eqb_spec old c) as [->|Hc].
  - rewrite Ascii.eqb_refl.
    destruct (Ascii.eqb_spec new c); [congruence | lia].
  - destruct (Ascii.eqb_spec new c); lia.
Qed.

(** ** What a Notify call does *)

Section NotifyFacts.
Context `{Package}.

Lemma first_out_of_range_None (numbers : list string) :
  encoding_json.first_out_of_range numbers = None
  ↔ Forall (λ lit, is_Some (float64_text lit)) numbers.
Proof.
  induction numbers as [|lit rest IH]; [done|].
  cbn [encoding_json.first_out_of_range].
  destruct (float64_text lit) as [text|] eqn:Hlit.
  - rewrite IH. split.
    + intros Hrest. constructor; [by rewrite Hlit | done].
    + by intros [_ Hrest]%Forall_cons.
  - split; [done|]. intros [[text Htext] _]%Forall_cons. by rewrite Hlit in Htext.
Qed.

Lemma custom_conf_null (an : AirflowNotifier) :
  json.decode (Conf an) = Some JNull → custom_conf an = None.
Proof.
  unfold custom_conf, encoding_json.Unmarshal, json.decode.
  destruct (json.scan (Conf an)) as [[v seen]|]; [|done].
  cbn [fmap option_fmap option_map fst]. by intros [= ->].
Qed.

Lemma custom_conf_not_null (an : AirflowNotifier) :
  json.decode (Conf an) ≠ Some JNull →
  custom_conf an = Some (custom_members an).
Proof.
  unfold custom_conf, custom_members, encoding_json.Unmarshal, json.decode, json.numbers.
  destruct (json.scan (Conf an)) as [[v seen]|]; [|done].
  cbn [fmap option_fmap option_map fst].
  destruct v as [| | | | |m]; try done.
  intros _. cbn [default]. rewrite (right_id_L ∅ (∪)).
  destruct (encoding_json.first_out_of_range seen) as [lit|] eqn:Hfirst.
  - rewrite decide_False; [done|].
    intros Hall. apply first_out_of_range_None in Hall. by rewrite Hall in Hfirst.
  - rewrite decide_True; [done|]. by apply first_out_of_range_None.
Qed.

(** A number of the conf setting that is outside the range of [float64]
    makes the decoder report an error, and the call then drops the whole
    custom configuration, the members that decoded included. *)
Lemma out_of_range_number_drops_the_conf (answer : option error) :
  float64_text "1e400" = None →
  custom_conf (Scenario.notifier ""
                 (Scenario.conf_a_b "1e400" (Scenario.quoted "kept?")) answer)
  = Some ∅.
Proof.
  intros Hbig. unfold custom_conf, encoding_json.Unmarshal.
  replace (json.scan _)
    with (Some (JObject {[ "a" := JNumber "1e400"; "b" := JString "kept?" ]}, ["1e400"]))
    by (vm_compute; reflexivity).
  cbn [encoding_json.first_out_of_range]. by rewrite Hbig.
Qed.

(** The error is reported also when a later member of the same key
    replaces the one that holds the number. *)
Lemma out_of_range_number_of_a_replaced_member (answer : option error) :
  float64_text "1e400" = None →
  custom_conf (Scenario.notifier "" (Scenario.conf_a_a "1e400" "1") answer) = Some ∅.
Proof.
  intros Hbig. unfold custom_conf, encoding_json.Unmarshal.
  replace (json.scan _)
    with (Some (JObject {[ "a" := JNumber "1" ]}, ["1e400"; "1"]))
    by (vm_compute; reflexivity).
  cbn [encoding_json.first_out_of_range]. by rewrite Hbig.
Qed.

(** A number in the range of [float64] is sent as [json.Marshal] writes
    the [float64], not as the setting wrote it. *)
Lemma numbers_are_written_as_float64 (answer : option error) :
  float64_text "1.0" = Some "1" →
  float64_text "12345678901234567890" = Some "12345678901234567000" →
  custom_conf (Scenario.notifier ""
                 (Scenario.conf_a_b "1.0" "12345678901234567890") answer)
  = Some {[ "a" := JNumber "1"; "b" := JNumber "12345678901234567000" ]}
  ∧ encoding_json.encode
      (JObject {[ "a" := JNumber "1"; "b" := JNumber "12345678901234567000" ]})
    = Scenario.conf_a_b "1" "12345678901234567000".
Proof.
  intros Hone Hlong. split; [|vm_compute; reflexivity].
  unfold custom_conf, encoding_json.Unmarshal.
  replace (json.scan _)
    with (Some (JObject {[ "a" := JNumber "1.0"; "b" := JNumber "12345678901234567890" ]},
                ["1.0"; "12345678901234567890"]))
    by (vm_compute; reflexivity).
  cbn [encoding_json.first_out_of_range]. rewrite Hone, Hlong.
  cbn [default]. rewrite (right_id_L ∅ (∪)).
  rewrite fmap_insert, map_fmap_singleton.
  cbn [encoding_json.to_interface]. by rewrite Hone, Hlong.
Qed.

(** A call through a pointer to the notifier [an]: it panics on a nil
    map, and otherwise sends one request and returns what the answer of
    the sender determines. *)
Lemma Notify_run (p : positive) (an : AirflowNotifier) (ctx : Context)
    (as_ : list types.Alert) (w : World) :
  heap w !! p = Some an →
  Notify p ctx as_ w =
    match custom_conf an with
    | None => (Panicked "assignment to entry in nil map", record [debug_entry an] w)
    | Some custom =>
        let cmd := request an (moment an w) ctx as_ custom in
        let answer := notifications.SendWebhookSync (ns an) ctx cmd
                        (journal w ++ [debug_entry an]) in
        (Returned (delivered answer),
         record ([debug_entry an; Sent cmd answer] ++ after_answer an cmd answer) w)
    end.
Proof.
  intros Hp. unfold Notify, mbind, Go_bind, load. rewrite Hp.
  unfold log.Debug, emit, history, custom_conf.
  destruct (encoding_json.Unmarshal (Conf an) None) as [conf err].
  set (custom := match err with Some _ => Some ∅ | None => conf end).
  rewrite journal_record.
  unfold request, body_document, trigger, client_url, rendered_details,
    rendered_description, moment.
  fold (debug_entry an).
  destruct (TmplText (journal w ++ [debug_entry an]) ctx (tmpl an) as_ (log_ an)
              DefaultMessageTitleEmbed None)
    as [description tmplErr]; cbn [fst snd].
  destruct (TmplText (journal w ++ [debug_entry an]) ctx (tmpl an) as_ (log_ an)
              DefaultMessageEmbed tmplErr)
    as [details tmplErr']; cbn [fst snd].
  destruct custom as [custom|]; [|reflexivity].
  cbn [map_assign mret Go_ret].
  unfold set_nonempty, simplejson.New.
  destruct (decide (RunId an ≠ "")), (decide (LogicalDate an ≠ "")),
    (decide (State an ≠ ""));
    cbn [simplejson.Set_ simplejson.MarshalJSON encoding_json.Marshal];
    unfold call_SendWebhookSync; rewrite journal_record;
    match goal with
    | |- context [notifications.SendWebhookSync ?s ?c ?r ?j] =>
        destruct (notifications.SendWebhookSync s c r j) as [e|]
    end;
    unfold log.Error, emit, mret, Go_ret, after_answer, error_entry, delivered;
    rewrite ?record_record; reflexivity.
Qed.
End NotifyFacts.

(** ** Construction *)

Lemma setting_string (config : NotificationChannelConfig.t) (m : gmap string Json)
    (key s : string) :
  NotificationChannelConfig.Settings config = JObject m →
  m !! key = Some (JString s) →
  setting config key = s.
Proof. unfold setting. intros -> Hk. simpl. by rewrite Hk. Qed.

Lemma setting_absent (config : NotificationChannelConfig.t) (m : gmap string Json)
    (key : string) :
  NotificationChannelConfig.Settings config = JObject m →
  m !! key = None →
  setting config key = "".
Proof. unfold setting. intros -> Hk. simpl. by rewrite Hk. Qed.

(** The three ways [NewAirflowConfig] ends: the DAG identifier is looked at
    first, the URL second, and only then is the secret resolved. *)
Lemma NewAirflowConfig_run (config : NotificationChannelConfig.t)
    (decryptFunc : GetDecryptedValueFn) (w : World) :
  NewAirflowConfig config decryptFunc w =
    if decide (setting config "dagId" = "") then
      (Returned (None, Some (errors_New "Could not find DAG ID property in settings")), w)
    else if decide (setting config "url" = "") then
      (Returned (None, Some (errors_New "Could not find url property in settings")), w)
    else
      (Returned (Some (built_config config decryptFunc), None),
       record [Decrypted "password"] w).
Proof.
  unfold NewAirflowConfig. fold (setting config "dagId") (setting config "url").
  destruct (decide (setting config "dagId" = "")); [reflexivity|].
  destruct (decide (setting config "url" = "")); [reflexivity|].
  reflexivity.
Qed.

(** Without a DAG identifier or without a URL the factory returns no
    notifier, allocates nothing and calls nobody. *)
Lemma AirflowFactory_missing_field (fc : FactoryConfig) (w : World) :
  setting (Config fc) "dagId" = "" ∨ setting (Config fc) "url" = "" →
  ∃ reason,
    AirflowFactory fc w = (Returned (None, Some (receiverInitError reason (Config fc))), w).
Proof.
  intros Hmiss. unfold AirflowFactory, mbind, Go_bind.
  rewrite NewAirflowConfig_run.
  destruct (decide (setting (Config fc) "dagId" = "")); [by eexists|].
  destruct (decide (setting (Config fc) "url" = "")); [by eexists|].
  by destruct Hmiss.
Qed.

(** C1, at the settings of the spec's scenario B (a URL and no DAG
    identifier): the builder names the DAG ID, but its message starts with
    a capital letter, so it is not the documented lower-case phrase; the
    factory wraps that message and returns no notifier. *)
Theorem C1_missing_dagId_message_is_capitalised :
  let config := Scenario.receiver {[ "url" := JString "http://localhost" ]} in
  NewAirflowConfig config Scenario.no_decrypt Scenario.start
    = (Returned (None, Some (errors_New "Could not find DAG ID property in settings")),
       Scenario.start)
  ∧ errors_New "Could not find DAG ID property in settings"
    ≠ errors_New "could not find DAG ID property in settings"
  ∧ AirflowFactory (Scenario.factory {[ "url" := JString "http://localhost" ]} None)
      Scenario.start
    = (Returned (None, Some (receiverInitError
                   "Could not find DAG ID property in settings" config)),
       Scenario.start).
Proof. split_and!; [reflexivity | discriminate | reflexivity]. Qed.

(** The same for a document without a URL. *)
Lemma missing_url_message_is_capitalised :
  NewAirflowConfig (Scenario.receiver {[ "dagId" := JString "somedag" ]})
    Scenario.no_decrypt Scenario.start
  = (Returned (None, Some (errors_New "Could not find url property in settings")),
     Scenario.start).
Proof. reflexivity. Qed.

(** C10: the stored conf is the conf setting with every single quote
    turned into a double quote, wherever it stands: no single quote is
    left, the length is kept, and the double quotes of the result are those
    of the setting together with its former single quotes. *)
Theorem C10_single_quotes_replaced (config : NotificationChannelConfig.t)
    (decryptFunc : GetDecryptedValueFn) (w w' : World) (cfg : AirflowConfig.t) :
  NewAirflowConfig config decryptFunc w = (Returned (Some cfg, None), w') →
  AirflowConfig.Conf cfg
    = gostrings.ReplaceAll (setting config "conf") (byte_string squote) (byte_string dquote)
  ∧ AirflowConfig.Conf cfg
    = string_map (λ c, if Ascii.eqb c squote then dquote else c) (setting config "conf")
  ∧ string_count squote (AirflowConfig.Conf cfg) = 0
  ∧ String.length (AirflowConfig.Conf cfg) = String.length (setting config "conf")
  ∧ string_count dquote (AirflowConfig.Conf cfg)
    = string_count dquote (setting config "conf")
      + string_count squote (setting config "conf").
Proof.
  rewrite NewAirflowConfig_run.
  destruct (decide (setting config "dagId" = "")); [discriminate|].
  destruct (decide (setting config "url" = "")); [discriminate|].
  intros [= <- _]. cbn [AirflowConfig.Conf built_config].
  rewrite ReplaceAll_byte. split_and!.
  - reflexivity.
  - clear. induction (setting config "conf") as [|c r IH]; [reflexivity|].
    cbn [string_map]. rewrite IH. unfold replace_byte.
    by rewrite (Ascii.eqb_sym squote c).
  - by apply string_count_replaced.
  - apply string_map_length.
  - by apply string_count_replacement.
Qed.

Lemma C10_witness :
  let config :=
    Scenario.receiver (<["conf" := JString "{'a': 'it's'}"]> Scenario.settingsA) in
  let cfg := built_config config Scenario.no_decrypt in
  NewAirflowConfig config Scenario.no_decrypt Scenario.start
    = (Returned (Some cfg, None), record [Decrypted "password"] Scenario.start)
  ∧ AirflowConfig.Conf cfg
    = "{" +:+ Scenario.quoted "a" +:+ ": " +:+
      Scenario.quoted ("it" +:+ byte_string dquote +:+ "s") +:+ "}"
  ∧ string_count squote (AirflowConfig.Conf cfg) = 0.
Proof.
  intros config cfg.
  assert (Hrun : NewAirflowConfig config Scenario.no_decrypt Scenario.start
                 = (Returned (Some cfg, None), record [Decrypted "password"] Scenario.start))
    by reflexivity.
  split; [exact Hrun|]. split; [reflexivity|].
  exact (proj1 (proj2 (proj2 (C10_single_quotes_replaced _ _ _ _ _ Hrun)))).
Defined.

(** A conf document written with single quotes decodes after the
    replacement. *)
Example single_quoted_conf_decodes :
  json.decode (gostrings.ReplaceAll "{'a': 'b'}" (byte_string squote) (byte_string dquote))
  = Some (JObject {[ "a" := JString "b" ]}).
Proof. vm_compute. reflexivity. Qed.

(** An apostrophe inside a value is replaced as well, and the document no
    longer decodes. *)
Example apostrophe_in_conf_is_replaced :
  json.decode (gostrings.ReplaceAll "{'a': 'it's'}" (byte_string squote) (byte_string dquote))
  = None.
Proof. vm_compute. reflexivity. Qed.

(** ** The decoder and the encoder, at concrete texts *)

(** Arrays nested ten thousand deep decode, and one more level is a
    syntax error. *)
Example nesting_limit :
  is_Some (json.decode (Scenario.nested_arrays (N.to_nat 10000)))
  ∧ json.decode (Scenario.nested_arrays (N.to_nat 10001)) = None.
Proof.
  split.
  - assert (Hsome : bool_decide (json.decode (Scenario.nested_arrays (N.to_nat 10000))
                                 ≠ None) = true) by (vm_compute; reflexivity).
    apply bool_decide_eq_true in Hsome. by apply not_eq_None_Some.
  - vm_compute. reflexivity.
Qed.

(** A byte that is not part of well-formed UTF-8 is decoded as the
    replacement character, and is written as its escape. *)
Example invalid_utf8_is_replaced :
  json.decode (Scenario.quoted ("a" +:+ Scenario.byte 255 +:+ "b"))
  = Some (JString ("a" +:+ Scenario.byte 239 +:+ Scenario.byte 191
                   +:+ Scenario.byte 189 +:+ "b"))
  ∧ encoding_json.quote ("a" +:+ Scenario.byte 255 +:+ "b")
    = Scenario.quoted ("a" +:+ byte_string backslash +:+ "ufffd" +:+ "b")
  ∧ encoding_json.quote (Scenario.byte 195 +:+ Scenario.byte 169)
    = Scenario.quoted (Scenario.byte 195 +:+ Scenario.byte 169).
Proof. vm_compute. by split_and!. Qed.

(** An event that differs in its constructor from all the events of a
    list is not in it. *)
Ltac no_such_event H :=
  cbn [app] in H;
  repeat (apply elem_of_cons in H as [H|H]; [discriminate H|]);
  by apply elem_of_nil in H.

(** A notifier constructed from a configuration lives in the heap cell the
    constructor returns. *)
Lemma NewAirflowNotifier_run (cfg : AirflowConfig.t)
    (sender : notifications.WebhookSender) (t : template.Template) (w : World) :
  ∃ p an,
    NewAirflowNotifier cfg sender t w
      = (Returned p, {| journal := journal w; heap := <[p := an]> (heap w) |})
    ∧ heap w !! p = None
    ∧ URL an = AirflowConfig.URL cfg ∧ DagID an = AirflowConfig.DagID cfg
    ∧ User an = AirflowConfig.User cfg ∧ Password an = AirflowConfig.Password cfg
    ∧ RunId an = AirflowConfig.RunId cfg
    ∧ LogicalDate an = AirflowConfig.LogicalDate cfg
    ∧ State an = AirflowConfig.State cfg ∧ Conf an = AirflowConfig.Conf cfg
    ∧ ns an = sender ∧ tmpl an = t
    ∧ log_ an = log.New "alerting.notifier.airflow".
Proof.
  unfold NewAirflowNotifier, new. eexists _, _. split; [reflexivity|].
  split; [|by split_and!].
  apply not_elem_of_dom, is_fresh.
Qed.

(** C5: with the decrypt function of the secrets service, the password of
    a constructed configuration is the decrypted secure value when the
    secure settings hold the key, else the plaintext setting when the
    settings hold one, else empty.  Construction resolves it once and
    leaves the receiver's documents as they were; a later Notify resolves
    nothing and sends the password resolved at construction. *)
Theorem C5_password_resolution (decrypt : string → string)
    (config : NotificationChannelConfig.t) (w w' : World) (cfg : AirflowConfig.t) :
  NewAirflowConfig config (GetDecryptedValue decrypt) w = (Returned (Some cfg, None), w') →
  (∀ encrypted,
      NotificationChannelConfig.SecureSettings config !! "password" = Some encrypted →
      AirflowConfig.Password cfg = decrypt encrypted)
  ∧ (∀ m s,
      NotificationChannelConfig.SecureSettings config !! "password" = None →
      NotificationChannelConfig.Settings config = JObject m →
      m !! "password" = Some (JString s) →
      AirflowConfig.Password cfg = s)
  ∧ (∀ m,
      NotificationChannelConfig.SecureSettings config !! "password" = None →
      NotificationChannelConfig.Settings config = JObject m →
      m !! "password" = None →
      AirflowConfig.Password cfg = "")
  ∧ new_events (NewAirflowConfig config (GetDecryptedValue decrypt)) w
    = [Decrypted "password"]
  ∧ AirflowConfig.NotificationChannelConfig_ cfg = config
  ∧ (∀ (P : Package) sender t ctx as_,
       ∃ p w1,
         NewAirflowNotifier cfg sender t w' = (Returned p, w1)
         ∧ (∀ key, Decrypted key ∉ new_events (Notify p ctx as_) w1)
         ∧ (∀ cmd, cmd ∈ sent_commands (new_events (Notify p ctx as_) w1) →
                   models.Password cmd = AirflowConfig.Password cfg)).
Proof.
  intros Hrun.
  assert (Hev : new_events (NewAirflowConfig config (GetDecryptedValue decrypt)) w
                = [Decrypted "password"]).
  { unfold new_events. rewrite Hrun. cbn [snd].
    rewrite NewAirflowConfig_run in Hrun.
    destruct (decide (setting config "dagId" = "")); [discriminate|].
    destruct (decide (setting config "url" = "")); [discriminate|].
    injection Hrun as _ <-. apply drop_journal_record. }
  rewrite NewAirflowConfig_run in Hrun.
  destruct (decide (setting config "dagId" = "")); [discriminate|].
  destruct (decide (setting config "url" = "")); [discriminate|].
  injection Hrun as <- <-.
  cbn [AirflowConfig.Password AirflowConfig.NotificationChannelConfig_ built_config].
  unfold GetDecryptedValue. split_and!.
  - by intros encrypted ->.
  - intros m s -> Hs Hm. by apply (setting_string config m).
  - intros m -> Hs Hm. by apply (setting_absent config m).
  - exact Hev.
  - reflexivity.
  - intros P sender t ctx as_.
    destruct (NewAirflowNotifier_run (built_config config (GetDecryptedValue decrypt))
                sender t (record [Decrypted "password"] w))
      as (p & an & Hnew & _ & _ & _ & _ & Hpw & _).
    eexists p, _. split; [exact Hnew|].
    set (w1 := {| journal := _; heap := _ |}).
    assert (Hp : heap w1 !! p = Some an) by apply lookup_insert_eq.
    unfold new_events. rewrite (Notify_run p an ctx as_ w1 Hp).
    destruct (custom_conf an) as [custom|]; cbn [snd].
    + rewrite drop_journal_record. split.
      * intros key Hin. unfold after_answer, error_entry, debug_entry in Hin.
        destruct (notifications.SendWebhookSync _ _ _ _); no_such_event Hin.
      * intros cmd Hin. unfold sent_commands, after_answer, debug_entry in Hin.
        destruct (notifications.SendWebhookSync _ _ _ _);
          cbn in Hin; apply list_elem_of_singleton in Hin; subst cmd; exact Hpw.
    + rewrite drop_journal_record. split.
      * intros key Hin. unfold debug_entry in Hin. no_such_event Hin.
      * intros cmd Hin. cbn in Hin. by apply elem_of_nil in Hin.
Qed.

Lemma C5_witness :
  let config :=
    {| NotificationChannelConfig.UID := "";
       NotificationChannelConfig.Name := "airflow_testing";
       NotificationChannelConfig.Type_ := "airflow";
       NotificationChannelConfig.DisableResolveMessage := false;
       NotificationChannelConfig.Settings :=
         JObject (<["password" := JString "plain"]> Scenario.settingsA);
       NotificationChannelConfig.SecureSettings := {[ "password" := "c2VjcmV0" ]} |} in
  let decrypt := λ encrypted : string, "secret:" +:+ encrypted in
  let cfg := built_config config (GetDecryptedValue decrypt) in
  NewAirflowConfig config (GetDecryptedValue decrypt) Scenario.start
    = (Returned (Some cfg, None), record [Decrypted "password"] Scenario.start)
  ∧ AirflowConfig.Password cfg = "secret:c2VjcmV0".
Proof.
  intros config decrypt cfg.
  assert (Hrun : NewAirflowConfig config (GetDecryptedValue decrypt) Scenario.start
                 = (Returned (Some cfg, None), record [Decrypted "password"] Scenario.start))
    by reflexivity.
  split; [exact Hrun|].
  exact (proj1 (C5_password_resolution decrypt config _ _ cfg Hrun) "c2VjcmV0" eq_refl).
Defined.

(** ** Notify *)

Section NotifyProperties.
Context `{Package}.

Lemma Notify_events (p : positive) (an : AirflowNotifier) (ctx : Context)
    (as_ : list types.Alert) (w : World) :
  heap w !! p = Some an →
  new_events (Notify p ctx as_) w =
    match custom_conf an with
    | None => [debug_entry an]
    | Some custom =>
        let cmd := request an (moment an w) ctx as_ custom in
        let answer := notifications.SendWebhookSync (ns an) ctx cmd
                        (journal w ++ [debug_entry an]) in
        [debug_entry an; Sent cmd answer] ++ after_answer an cmd answer
    end.
Proof.
  intros Hp. unfold new_events. rewrite (Notify_run p an ctx as_ w Hp).
  destruct (custom_conf an); cbn [snd]; apply drop_journal_record.
Qed.

(** A call changes the world by adding events to the journal, and in no
    other way. *)
Lemma Notify_frame (p : positive) (ctx : Context) (as_ : list types.Alert)
    (w : World) :
  ∃ evs, (Notify p ctx as_ w).2 = record evs w.
Proof.
  destruct (heap w !! p) as [an|] eqn:Hp.
  - rewrite (Notify_run p an ctx as_ w Hp).
    destruct (custom_conf an); by eexists.
  - exists []. unfold Notify, mbind, Go_bind, load. rewrite Hp.
    unfold record. rewrite app_nil_r. by destruct w.
Qed.

Lemma Notify_heap (p : positive) (ctx : Context) (as_ : list types.Alert)
    (w : World) :
  heap (Notify p ctx as_ w).2 = heap w.
Proof. destruct (Notify_frame p ctx as_ w) as [evs ->]. reflexivity. Qed.

(** C8: a Notify call leaves every notifier of the heap as it was, the
    one it is called on included, whether it returns or panics; all it
    leaves behind are the events it added to the journal. *)
Theorem C8_notifier_unchanged (p : positive) (ctx : Context)
    (as_ : list types.Alert) (w : World) :
  heap (Notify p ctx as_ w).2 = heap w
  ∧ (∀ q, heap (Notify p ctx as_ w).2 !! q = heap w !! q)
  ∧ ∃ evs, (Notify p ctx as_ w).2 = {| journal := journal w ++ evs; heap := heap w |}.
Proof.
  destruct (Notify_frame p ctx as_ w) as [evs Hevs].
  rewrite Hevs. split_and!; [reflexivity | reflexivity | by exists evs].
Qed.




(** C4: the answer recorded with a request of a call is what the sender
    returned for it, and it decides the result: an error is returned as
    it is, with [false], after an entry of error severity that carries
    the error and the body of the request; no error gives [(true, nil)]. *)
Theorem C4_transport_answer_decides (p : positive) (an : AirflowNotifier)
    (ctx : Context) (as_ : list types.Alert) (w : World)
    (cmd : models.SendWebhookSync) (answer : option error) :
  heap w !! p = Some an →
  Sent cmd answer ∈ new_events (Notify p ctx as_) w →
  answer = notifications.SendWebhookSync (ns an) ctx cmd
             (journal w ++ [Logged (logger_name (log_ an)) LvlDebug
                              "executing airflow notification"
                              [("notification", LogString (Base.Name (Base_ an)))]])
  ∧ match answer with
    | Some e =>
        (Notify p ctx as_ w).1 = Returned (false, Some e)
        ∧ last (new_events (Notify p ctx as_) w)
          = Some (Logged (logger_name (log_ an)) LvlError
                    "failed to send notification to Airflow"
                    [("err", LogErr e); ("body", LogString (models.Body cmd))])
    | None =>
        (Notify p ctx as_ w).1 = Returned (true, None)
        ∧ last (new_events (Notify p ctx as_) w) = Some (Sent cmd None)
    end.
Proof.
  intros Hp. rewrite (Notify_events p an ctx as_ w Hp), (Notify_run p an ctx as_ w Hp).
  destruct (custom_conf an) as [custom|].
  - cbn zeta. fold (debug_entry an).
    set (c := request an (moment an w) ctx as_ custom).
    set (a := notifications.SendWebhookSync (ns an) ctx c (journal w ++ [debug_entry an])).
    intros Hin.
    assert (Heq : Sent cmd answer = Sent c a).
    { unfold after_answer, error_entry, debug_entry in Hin.
      destruct a; cbn [app] in Hin;
        apply elem_of_cons in Hin as [Hin|Hin]; try discriminate Hin;
        apply elem_of_cons in Hin as [Hin|Hin]; try exact Hin;
        no_such_event Hin. }
    injection Heq as -> ->. split; [reflexivity|].
    unfold after_answer, delivered, error_entry. by destruct a.
  - intros Hin. unfold debug_entry in Hin. no_such_event Hin.
Qed.

(** When the conf setting is not the JSON null, a call sends exactly one
    request. *)
Lemma Notify_sends_one (p : positive) (an : AirflowNotifier) (ctx : Context)
    (as_ : list types.Alert) (w : World) :
  heap w !! p = Some an →
  json.decode (Conf an) ≠ Some JNull →
  sent_commands (new_events (Notify p ctx as_) w)
  = [request an (moment an w) ctx as_ (custom_members an)].
Proof.
  intros Hp Hnull. rewrite (Notify_events p an ctx as_ w Hp).
  rewrite (custom_conf_not_null an Hnull). cbn zeta.
  unfold after_answer, sent_commands, debug_entry, error_entry.
  by destruct (notifications.SendWebhookSync _ _ _ _).
Qed.

(** When the conf setting is the JSON null, a call panics before it
    sends anything. *)
Lemma Notify_null_conf (p : positive) (an : AirflowNotifier) (ctx : Context)
    (as_ : list types.Alert) (w : World) :
  heap w !! p = Some an →
  json.decode (Conf an) = Some JNull →
  (Notify p ctx as_ w).1 = Panicked "assignment to entry in nil map"
  ∧ sent_commands (new_events (Notify p ctx as_) w) = [].
Proof.
  intros Hp Hnull. rewrite (Notify_events p an ctx as_ w Hp).
  rewrite (Notify_run p an ctx as_ w Hp).
  by rewrite (custom_conf_null an Hnull).
Qed.

(** A conf setting that holds no JSON object contributes no member. *)
Lemma custom_members_no_object (an : AirflowNotifier) :
  (∀ m, json.decode (Conf an) ≠ Some (JObject m)) → custom_members an = ∅.
Proof.
  intros Hobj. unfold custom_members.
  destruct (json.decode (Conf an)) as [[]|]; try reflexivity.
  by destruct (Hobj m).
Qed.

(** A conf setting that is absent, is not JSON, or is JSON of another
    kind than an object or null, is replaced by an empty map: the conf of
    the body holds the trigger and nothing else. *)
Lemma Notify_conf_fallback (p : positive) (an : AirflowNotifier) (ctx : Context)
    (as_ : list types.Alert) (w : World) :
  heap w !! p = Some an →
  json.decode (Conf an) ≠ Some JNull →
  (∀ m, json.decode (Conf an) ≠ Some (JObject m)) →
  ∃ cmd doc,
    sent_commands (new_events (Notify p ctx as_) w) = [cmd]
    ∧ models.Body cmd = encoding_json.encode (JObject doc)
    ∧ doc !! "conf"
      = Some (JObject {[ "trigger" :=
                JObject (JString <$> trigger an (moment an w) ctx as_) ]}).
Proof.
  intros Hp Hnull Hobj. eexists _, _. split; [by apply Notify_sends_one|].
  split; [reflexivity|]. unfold body_document. rewrite lookup_insert_eq.
  by rewrite (custom_members_no_object an Hobj).
Qed.

Lemma Sprintf_airflowUrl (url dagId : string) :
  fmt.Sprintf airflowUrl [url; dagId]
  = url +:+ "/api/v1/dags/" +:+ dagId +:+ "/dagRuns".
Proof. reflexivity. Qed.

Lemma lookup_set_nonempty (key value k : string) (m : gmap string Json) :
  set_nonempty key value m !! k
  = if decide (k = key ∧ value ≠ "") then Some (JString value) else m !! k.
Proof.
  unfold set_nonempty. destruct (decide (value ≠ "")) as [Hv|Hv].
  - destruct (decide (k = key)) as [->|Hk].
    + rewrite lookup_insert_eq. by rewrite decide_True.
    + rewrite lookup_insert_ne by done. rewrite decide_False; [done | tauto].
  - rewrite decide_False; [done | tauto].
Qed.

Lemma dom_set_nonempty (key value : string) (m : gmap string Json) :
  dom (set_nonempty key value m) ⊆ {[ key ]} ∪ dom m.
Proof.
  unfold set_nonempty. destruct (decide (value ≠ "")); [|set_solver].
  rewrite dom_insert_L. set_solver.
Qed.

(** C3, amended: when the conf setting is not the JSON null, a call
    issues one request: a POST to the DAG-runs endpoint of the configured
    URL and DAG, with the two JSON headers, whose body document holds
    dag_run_id, logical_date and state exactly when the configured value
    is not empty, and whose conf is the custom configuration with a
    trigger object of keys client, client_url, description and details.
    The custom configuration is what the program decodes from the conf
    setting: the members of the JSON object it holds, numbers as
    [float64]; it is empty when the setting holds no JSON object, and
    also when one of the numbers of the object is outside the range of
    [float64], since the decoder then reports an error. *)
Theorem C3_wire_contract (p : positive) (an : AirflowNotifier) (ctx : Context)
    (as_ : list types.Alert) (w : World) :
  heap w !! p = Some an →
  json.decode (Conf an) ≠ Some JNull →
  ∃ cmd doc custom trig,
    sent_commands (new_events (Notify p ctx as_) w) = [cmd]
    ∧ models.HttpMethod cmd = "POST"
    ∧ models.Url cmd = URL an +:+ "/api/v1/dags/" +:+ DagID an +:+ "/dagRuns"
    ∧ models.HttpHeader cmd = {[ "Content-Type" := "application/json";
                                 "Accept" := "application/json" ]}
    ∧ models.Body cmd = encoding_json.encode (JObject doc)
    ∧ doc !! "dag_run_id"
      = (if decide (RunId an = "") then None else Some (JString (RunId an)))
    ∧ doc !! "logical_date"
      = (if decide (LogicalDate an = "") then None else Some (JString (LogicalDate an)))
    ∧ doc !! "state"
      = (if decide (State an = "") then None else Some (JString (State an)))
    ∧ dom doc ⊆ {[ "dag_run_id"; "logical_date"; "state"; "conf" ]}
    ∧ custom = match json.decode (Conf an) with
               | Some (JObject m) =>
                   if decide (Forall (λ lit, is_Some (float64_text lit))
                                (json.numbers (Conf an)))
                   then encoding_json.to_interface <$> m
                   else ∅
               | _ => ∅
               end
    ∧ doc !! "conf" = Some (JObject (<["trigger" := JObject (JString <$> trig)]> custom))
    ∧ dom trig = {[ "client"; "client_url"; "description"; "details" ]}
    ∧ trig !! "client" = Some "Grafana".
Proof.
  intros Hp Hnull.
  eexists _, _, _, (trigger an (moment an w) ctx as_).
  split; [by apply Notify_sends_one|].
  split; [reflexivity|]. split; [apply Sprintf_airflowUrl|].
  split; [reflexivity|]. split; [reflexivity|].
  unfold body_document.
  split; [|split; [|split; [|split; [|split; [reflexivity|split; [|split]]]]]].
  - rewrite lookup_insert_ne by done. rewrite !lookup_set_nonempty.
    rewrite decide_False by (intros [? _]; done).
    rewrite decide_False by (intros [? _]; done).
    destruct (decide (RunId an = "")) as [Hr|Hr].
    + rewrite decide_False; [done | tauto].
    + by rewrite decide_True.
  - rewrite lookup_insert_ne by done. rewrite !lookup_set_nonempty.
    rewrite decide_False by (intros [? _]; done).
    destruct (decide (LogicalDate an = "")) as [Hr|Hr].
    + rewrite decide_False by tauto. by rewrite decide_False by (intros [? _]; done).
    + by rewrite decide_True.
  - rewrite lookup_insert_ne by done. rewrite !lookup_set_nonempty.
    destruct (decide (State an = "")) as [Hr|Hr].
    + rewrite decide_False by tauto.
      rewrite decide_False by (intros [? _]; done).
      by rewrite decide_False by (intros [? _]; done).
    + by rewrite decide_True.
  - rewrite dom_insert_L.
    pose proof (dom_set_nonempty "state" (State an)
      (set_nonempty "logical_date" (LogicalDate an)
         (set_nonempty "dag_run_id" (RunId an) ∅))) as H1.
    pose proof (dom_set_nonempty "logical_date" (LogicalDate an)
         (set_nonempty "dag_run_id" (RunId an) ∅)) as H2.
    pose proof (dom_set_nonempty "dag_run_id" (RunId an) ∅) as H3.
    rewrite dom_empty_L in H3. set_solver.
  - by rewrite lookup_insert_eq.
  - unfold trigger. rewrite !dom_insert_L, dom_singleton_L. set_solver.
  - unfold trigger. by rewrite lookup_insert_eq.
Qed.

(** Apart from the conf setting that is the JSON null, a rendering error
    is not fatal.  Whatever the two renderings return, partial texts and
    captured errors alike, a call whose conf setting is not the JSON null
    sends its one request, whose trigger carries the text of the title
    rendering as description and the text of the body rendering as
    details, and its result is the one the answer of the sender
    determines: the captured errors [e1] and [e2] appear in neither. *)
Lemma render_errors_are_ignored (p : positive) (an : AirflowNotifier)
    (ctx : Context) (as_ : list types.Alert) (w : World)
    (description details : string) (e1 e2 : option error) :
  heap w !! p = Some an →
  json.decode (Conf an) ≠ Some JNull →
  TmplText (moment an w) ctx (tmpl an) as_ (log_ an) DefaultMessageTitleEmbed None
  = (description, e1) →
  TmplText (moment an w) ctx (tmpl an) as_ (log_ an) DefaultMessageEmbed e1
  = (details, e2) →
  ∃ cmd answer doc conf trig,
    sent_commands (new_events (Notify p ctx as_) w) = [cmd]
    ∧ Sent cmd answer ∈ new_events (Notify p ctx as_) w
    ∧ (Notify p ctx as_ w).1
      = Returned match answer with
                 | Some err => (false, Some err)
                 | None => (true, None)
                 end
    ∧ models.Body cmd = encoding_json.encode (JObject doc)
    ∧ doc !! "conf" = Some (JObject conf)
    ∧ conf !! "trigger" = Some (JObject trig)
    ∧ trig !! "description" = Some (JString description)
    ∧ trig !! "details" = Some (JString details).
Proof.
  intros Hp Hnull Htitle Hbody.
  eexists _, _, _, _, _.
  split; [by apply Notify_sends_one|].
  rewrite (Notify_events p an ctx as_ w Hp), (Notify_run p an ctx as_ w Hp).
  rewrite (custom_conf_not_null an Hnull). cbn zeta.
  split; [apply elem_of_cons; right; apply elem_of_cons; left; reflexivity|].
  split; [reflexivity|]. split; [reflexivity|].
  unfold body_document.
  split; [by rewrite lookup_insert_eq|].
  split; [by rewrite lookup_insert_eq|].
  rewrite !lookup_fmap. unfold trigger, rendered_details, rendered_description.
  rewrite Htitle. cbn [fst snd]. rewrite Hbody. cbn [fst snd]. split.
  - do 2 (rewrite lookup_insert_ne by done). by rewrite lookup_insert_eq.
  - do 3 (rewrite lookup_insert_ne by done). by rewrite lookup_singleton_eq.
Qed.

End NotifyProperties.



(** ** The factory followed by a call *)

Lemma AirflowFactory_run (fc : FactoryConfig) (w : World) :
  setting (Config fc) "dagId" ≠ "" →
  setting (Config fc) "url" ≠ "" →
  ∃ p an,
    AirflowFactory fc w
      = (Returned (Some p, None),
         {| journal := journal w ++ [Decrypted "password"]; heap := <[p := an]> (heap w) |})
    ∧ heap w !! p = None
    ∧ URL an = setting (Config fc) "url"
    ∧ DagID an = setting (Config fc) "dagId"
    ∧ RunId an = setting (Config fc) "runId"
    ∧ LogicalDate an = setting (Config fc) "logicalDate"
    ∧ State an = setting (Config fc) "state"
    ∧ Conf an = gostrings.ReplaceAll (setting (Config fc) "conf")
                  (byte_string squote) (byte_string dquote)
    ∧ ns an = NotificationService fc
    ∧ tmpl an = Template fc
    ∧ log_ an = log.New "alerting.notifier.airflow"
    ∧ Base.Name (Base_ an) = NotificationChannelConfig.Name (Config fc).
Proof.
  intros Hdag Hurl. unfold AirflowFactory, mbind, Go_bind.
  rewrite NewAirflowConfig_run.
  rewrite decide_False by done. rewrite decide_False by done.
  unfold NewAirflowNotifier, new. cbn [record journal heap].
  eexists _, _. split; [reflexivity|].
  split; [|by split_and!].
  apply not_elem_of_dom, is_fresh.
Qed.

Lemma string_app_assoc (a b c : string) : (a +:+ b) +:+ c = a +:+ b +:+ c.
Proof.
  induction a as [|x a IH]; [reflexivity|].
  change (String x ((a +:+ b) +:+ c) = String x (a +:+ b +:+ c)). by rewrite IH.
Qed.

Lemma encode_singleton (k : string) (v : Json) :
  encoding_json.encode (JObject {[ k := v ]})
  = "{" +:+ encoding_json.quote k +:+ ":" +:+ encoding_json.encode v +:+ "}".
Proof.
  cbn [encoding_json.encode]. rewrite map_fmap_singleton.
  unfold encoding_json.sorted_keys. rewrite map_to_list_singleton.
  change (merge_sort encoding_json.key_le (fst <$> [(k, encoding_json.encode v)]))
    with [k].
  cbn [fmap list_fmap string_join]. rewrite lookup_singleton_eq. cbn [default].
  rewrite !string_app_assoc. reflexivity.
Qed.

(** C2: scenario A.  For the settings with URL [http://localhost] and DAG
    [somedag], one alert labelled alert1, and a sender that succeeds, the
    factory returns a notifier, and the call on it posts to
    [http://localhost/api/v1/dags/somedag/dagRuns] a body that is a conf
    object holding a trigger object, and returns [(true, nil)]. *)
Theorem C2_scenario_A `{Package} (uid name type_ : string) (disable : bool)
    (secure : gmap string string) (decryptFunc : GetDecryptedValueFn)
    (sender : notifications.WebhookSender) (t : template.Template)
    (annotations : gmap string string) (startsAt endsAt : Z)
    (ctx : Context) (w : World) :
  (∀ ctx cmd j, notifications.SendWebhookSync sender ctx cmd j = None) →
  let config :=
    {| NotificationChannelConfig.UID := uid;
       NotificationChannelConfig.Name := name;
       NotificationChannelConfig.Type_ := type_;
       NotificationChannelConfig.DisableResolveMessage := disable;
       NotificationChannelConfig.Settings :=
         JObject {[ "url" := JString "http://localhost";
                    "dagId" := JString "somedag" ]};
       NotificationChannelConfig.SecureSettings := secure |} in
  let alert :=
    {| types.Labels := {[ "alertname" := "alert1"; "lbl1" := "val1" ]};
       types.Annotations := annotations;
       types.StartsAt := startsAt;
       types.EndsAt := endsAt |} in
  ∃ an w1 cmd trig,
    AirflowFactory {| Config := config; NotificationService := sender;
                      DecryptFunc := decryptFunc; Template := t |} w
      = (Returned (Some an, None), w1)
    ∧ (Notify an ctx [alert] w1).1 = Returned (true, None)
    ∧ sent_commands (new_events (Notify an ctx [alert]) w1) = [cmd]
    ∧ models.HttpMethod cmd = "POST"
    ∧ models.Url cmd = "http://localhost/api/v1/dags/somedag/dagRuns"
    ∧ models.Body cmd
      = encoding_json.encode
          (JObject {[ "conf" := JObject {[ "trigger" := JObject trig ]} ]})
    ∧ models.Body cmd
      = "{" +:+ encoding_json.quote "conf" +:+ ":" +:+
        "{" +:+ encoding_json.quote "trigger" +:+ ":" +:+
        encoding_json.encode (JObject trig) +:+ "}" +:+ "}".
Proof.
  intros Hsender config alert.
  set (fc := {| Config := config; NotificationService := sender;
                DecryptFunc := decryptFunc; Template := t |}).
  destruct (AirflowFactory_run fc w) as
    (p & an & Hrun & _ & Hurl & Hdag & Hrun_id & Hdate & Hstate & Hconf & Hns & _);
    [done | done |].
  change (setting (Config fc) "url") with "http://localhost" in Hurl.
  change (setting (Config fc) "dagId") with "somedag" in Hdag.
  change (setting (Config fc) "runId") with "" in Hrun_id.
  change (setting (Config fc) "logicalDate") with "" in Hdate.
  change (setting (Config fc) "state") with "" in Hstate.
  change (gostrings.ReplaceAll (setting (Config fc) "conf") _ _) with "" in Hconf.
  set (w1 := {| journal := _; heap := _ |}) in Hrun.
  assert (Hp : heap w1 !! p = Some an) by apply lookup_insert_eq.
  assert (Hnull : json.decode (Conf an) ≠ Some JNull) by (by rewrite Hconf).
  assert (Hcustom : custom_members an = ∅).
  { apply custom_members_no_object. intros m. by rewrite Hconf. }
  exists p, w1, (request an (moment an w1) ctx [alert] ∅),
    (JString <$> trigger an (moment an w1) ctx [alert]).
  split; [exact Hrun|].
  split.
  { rewrite (Notify_run p an ctx [alert] w1 Hp), (custom_conf_not_null an Hnull).
    cbn zeta. cbn [fst]. by rewrite Hns, Hsender. }
  split.
  { rewrite (Notify_sends_one p an ctx [alert] w1 Hp Hnull). by rewrite Hcustom. }
  split; [reflexivity|].
  split.
  { cbn [request models.Url]. by rewrite Sprintf_airflowUrl, Hurl, Hdag. }
  assert (Hdoc : body_document an (moment an w1) ctx [alert] ∅
                 = {[ "conf" := JObject {[ "trigger" :=
                        JObject (JString <$> trigger an (moment an w1) ctx [alert]) ]} ]}).
  { unfold body_document, set_nonempty. rewrite Hrun_id, Hdate, Hstate.
    rewrite !decide_False by (intros Hne; by apply Hne).
    by rewrite !insert_empty. }
  cbn [request models.Body]. rewrite Hdoc. split; [reflexivity|].
  rewrite (encode_singleton "conf"), (encode_singleton "trigger").
  rewrite !string_app_assoc. reflexivity.
Qed.

(** ** The scenarios, run *)

(** C9, at a conf setting that holds the text [null]: decoding succeeds
    and leaves the map nil, no empty object is substituted, and the call
    panics on the assignment of the trigger before anything is sent. *)
Theorem C9_null_conf_panics :
  let settings := <["conf" := JString "null"]> Scenario.settingsA in
  let run := Scenario.construct_and_notify settings None [Scenario.alert1] Scenario.start in
  (∀ F : Float64, @encoding_json.Unmarshal F "null" None = (None, None))
  ∧ run.1 = Panicked "assignment to entry in nil map"
  ∧ sent_commands (journal run.2) = [].
Proof. split; [intros F; reflexivity|]. vm_compute. by split. Qed.

Lemma C2_witness :
  (∀ ctx cmd j,
      notifications.SendWebhookSync (Scenario.sender None) ctx cmd j = None)
  ∧ ∃ an w1 cmd,
      AirflowFactory (Scenario.factory Scenario.settingsA None) Scenario.start
        = (Returned (Some an, None), w1)
      ∧ (@Notify Scenario.package an context_Background [Scenario.alert1] w1).1
        = Returned (true, None)
      ∧ sent_commands
          (new_events (@Notify Scenario.package an context_Background [Scenario.alert1]) w1)
        = [cmd]
      ∧ models.Url cmd = "http://localhost/api/v1/dags/somedag/dagRuns".
Proof.
  assert (Hsender : ∀ ctx cmd j,
             notifications.SendWebhookSync (Scenario.sender None) ctx cmd j = None)
    by (intros; reflexivity).
  split; [exact Hsender|].
  destruct (@C2_scenario_A Scenario.package "" "airflow_testing" "airflow" false ∅
              Scenario.no_decrypt (Scenario.sender None) Scenario.engine
              {[ "ann1" := "annv1" ]} 0 0 context_Background Scenario.start Hsender)
    as (an & w1 & cmd & trig & Hrun & Hres & Hsent & _ & Hurl & _).
  exists an, w1, cmd. split; [exact Hrun|]. split; [exact Hres|].
  split; [exact Hsent | exact Hurl].
Defined.

(** The body of scenario A, as text. *)
Example scenario_A_body :
  sent_commands
    (journal (Scenario.construct_and_notify Scenario.settingsA None
                [Scenario.alert1] Scenario.start).2)
  = [ {| models.Url := "http://localhost/api/v1/dags/somedag/dagRuns";
         models.User := "";
         models.Password := "";
         models.HttpMethod := "POST";
         models.HttpHeader := {[ "Content-Type" := "application/json";
                                 "Accept" := "application/json" ]};
         models.Body :=
           encoding_json.encode
             (JObject {[ "conf" := JObject {[ "trigger" := JObject
               {[ "client" := JString "Grafana";
                  "client_url" := JString "http://localhost/alerting/list";
                  "description" := JString (@DefaultMessageTitleEmbed Scenario.package +:+ " alert1");
                  "details" := JString (@DefaultMessageEmbed Scenario.package +:+ " alert1") ]} ]} ]}) |} ].
Proof. vm_compute. reflexivity. Qed.

(** C3 as stated fails on scenario A: the body that is sent decodes to a
    document whose trigger object has no title, so its keys are not
    client, client_url, description and title. *)
Lemma C3_trigger_has_no_title :
  ¬ ∃ cmd doc conf trig,
      sent_commands
        (journal (Scenario.construct_and_notify Scenario.settingsA None
                    [Scenario.alert1] Scenario.start).2) = [cmd]
      ∧ json.decode (models.Body cmd) = Some (JObject doc)
      ∧ doc !! "conf" = Some (JObject conf)
      ∧ conf !! "trigger" = Some (JObject trig)
      ∧ dom trig = {[ "client"; "client_url"; "description"; "title" ]}.
Proof.
  intros (cmd & doc & conf & trig & Hsent & Hdoc & Hconf & Htrig & Hdom).
  vm_compute in Hsent. injection Hsent as <-.
  vm_compute in Hdoc. injection Hdoc as <-.
  vm_compute in Hconf. injection Hconf as <-.
  vm_compute in Htrig. injection Htrig as <-.
  assert (Hdetails : "title" ∈ ({[ "client"; "client_url"; "description"; "title" ]}
                                  : gset string)) by set_solver.
  rewrite <- Hdom in Hdetails. apply elem_of_dom in Hdetails as [v Hv].
  vm_compute in Hv. discriminate Hv.
Qed.

Lemma C3_witness :
  let an := Scenario.notifier "run1"
              ("{" +:+ Scenario.quoted "a" +:+ ":" +:+ Scenario.quoted "b" +:+ ","
               +:+ Scenario.quoted "n" +:+ ":7}") None in
  let w := Scenario.world_of an in
  heap w !! 1%positive = Some an
  ∧ json.decode (Conf an) ≠ Some JNull
  ∧ ∃ cmd doc trig,
      sent_commands
        (new_events (@Notify Scenario.package 1%positive context_Background
                       [Scenario.alert1]) w) = [cmd]
      ∧ models.Url cmd = "http://localhost/api/v1/dags/somedag/dagRuns"
      ∧ models.Body cmd = encoding_json.encode (JObject doc)
      ∧ doc !! "dag_run_id" = Some (JString "run1")
      ∧ doc !! "state" = None
      ∧ doc !! "conf"
        = Some (JObject (<["trigger" := JObject (JString <$> trig)]>
                           {[ "a" := JString "b"; "n" := JNumber "7" ]})).
Proof.
  intros an w.
  assert (Hp : heap w !! 1%positive = Some an) by reflexivity.
  assert (Hnull : json.decode (Conf an) ≠ Some JNull) by (vm_compute; discriminate).
  split; [exact Hp|]. split; [exact Hnull|].
  destruct (@C3_wire_contract Scenario.package 1%positive an context_Background
              [Scenario.alert1] w Hp Hnull)
    as (cmd & doc & custom & trig & Hsent & _ & Hurl & _ & Hbody & Hrun & _ & Hstate
        & _ & Hcustom & Hconf & _).
  exists cmd, doc, trig. split; [exact Hsent|]. split; [exact Hurl|].
  split; [exact Hbody|]. split; [exact Hrun|]. split; [exact Hstate|].
  rewrite Hconf, Hcustom. reflexivity.
Defined.

Lemma C4_witness :
  let an := Scenario.notifier "" "" (Some Scenario.refused) in
  let w := Scenario.world_of an in
  let cmd := @request Scenario.package an (moment an w) context_Background
               [Scenario.alert1] ∅ in
  let call := @Notify Scenario.package 1%positive context_Background [Scenario.alert1] in
  heap w !! 1%positive = Some an
  ∧ Sent cmd (Some Scenario.refused) ∈ new_events call w
  ∧ (call w).1 = Returned (false, Some Scenario.refused)
  ∧ last (new_events call w)
    = Some (Logged "alerting.notifier.airflow" LvlError
              "failed to send notification to Airflow"
              [("err", LogErr Scenario.refused); ("body", LogString (models.Body cmd))]).
Proof.
  intros an w cmd call.
  assert (Hp : heap w !! 1%positive = Some an) by reflexivity.
  assert (Hin : Sent cmd (Some Scenario.refused) ∈ new_events call w).
  { unfold call. rewrite (Notify_events 1%positive an context_Background
                            [Scenario.alert1] w Hp).
    change (@custom_conf Scenario.package an) with (Some (∅ : gmap string Json)).
    cbn zeta. apply elem_of_cons; right. apply elem_of_cons; left. reflexivity. }
  split; [exact Hp|]. split; [exact Hin|].
  exact (proj2 (@C4_transport_answer_decides Scenario.package 1%positive an
                  context_Background [Scenario.alert1] w cmd
                  (Some Scenario.refused) Hp Hin)).
Defined.

(** C6, at a notifier whose conf setting holds the text [null] and a
    batch on which the rendering of the title fails: the rendering
    returns its partial output and the error, and the call does not go
    on to delivery: it panics on the assignment of the trigger, and no
    request is sent.  The same notifier with an empty conf setting sends
    its request on the same batch and reports delivery: it is the nil
    map, not the rendering error, that stops the call. *)
Theorem C6_null_conf_stops_the_call_with_a_rendering_error :
  let failure := errors_New "template: no entry for key alertname" in
  let an := Scenario.notifier "" "null" None in
  let w := Scenario.world_of an in
  let call := @Notify Scenario.package 1%positive context_Background
                [Scenario.unnamed_alert] in
  let an' := Scenario.notifier "" "" None in
  (@TmplText Scenario.package (moment an w) context_Background (tmpl an)
     [Scenario.unnamed_alert] (log_ an) (@DefaultMessageTitleEmbed Scenario.package) None).2
  = Some failure
  ∧ (call w).1 = Panicked "assignment to entry in nil map"
  ∧ sent_commands (new_events call w) = []
  ∧ (call (Scenario.world_of an')).1 = Returned (true, None)
  ∧ length (sent_commands (new_events call (Scenario.world_of an'))) = 1.
Proof. vm_compute. by split_and!. Qed.

Example render_errors_are_ignored_example :
  let an := Scenario.notifier "" "" None in
  let w := Scenario.world_of an in
  let call := @Notify Scenario.package 1%positive context_Background
                [Scenario.unnamed_alert] in
  let failure := errors_New "template: no entry for key alertname" in
  @TmplText Scenario.package (moment an w) context_Background (tmpl an)
    [Scenario.unnamed_alert] (log_ an) (@DefaultMessageTitleEmbed Scenario.package) None
  = (@DefaultMessageTitleEmbed Scenario.package, Some failure)
  ∧ @TmplText Scenario.package (moment an w) context_Background (tmpl an)
      [Scenario.unnamed_alert] (log_ an) (@DefaultMessageEmbed Scenario.package)
      (Some failure)
    = ("", Some failure)
  ∧ (call w).1 = Returned (true, None)
  ∧ ∃ cmd, sent_commands (new_events call w) = [cmd].
Proof.
  intros an w call failure.
  assert (Hp : heap w !! 1%positive = Some an) by reflexivity.
  assert (Hnull : json.decode (Conf an) ≠ Some JNull) by (vm_compute; discriminate).
  assert (Htitle :
      @TmplText Scenario.package (moment an w) context_Background (tmpl an)
        [Scenario.unnamed_alert] (log_ an) (@DefaultMessageTitleEmbed Scenario.package) None
      = (@DefaultMessageTitleEmbed Scenario.package, Some failure))
    by reflexivity.
  assert (Hbody :
      @TmplText Scenario.package (moment an w) context_Background (tmpl an)
        [Scenario.unnamed_alert] (log_ an) (@DefaultMessageEmbed Scenario.package)
        (Some failure)
      = ("", Some failure))
    by reflexivity.
  split; [exact Htitle|]. split; [exact Hbody|].
  destruct (@render_errors_are_ignored Scenario.package 1%positive an context_Background
              [Scenario.unnamed_alert] w _ _ _ _ Hp Hnull Htitle Hbody)
    as (cmd & answer & doc & conf & trig & Hsent & Hin & Hres & _).
  split; [|by exists cmd].
  unfold call in *. rewrite Hres.
  rewrite (Notify_events 1%positive an context_Background
             [Scenario.unnamed_alert] w Hp) in Hin.
  change (@custom_conf Scenario.package an) with (Some (∅ : gmap string Json)) in Hin.
  cbn zeta in Hin.
  apply elem_of_cons in Hin as [Hin|Hin]; [discriminate Hin|].
  apply elem_of_cons in Hin as [Hin|Hin]; [|by apply elem_of_nil in Hin].
  injection Hin as _ ->. reflexivity.
Qed.

(** The bodies do follow the context when the rendering closure reads
    it, which the engine of the spec does not: with a closure that
    writes the group labels of the context, two calls on the same
    notifier, in the same world and with the same batch, send different
    bodies when the contexts carry different group labels. *)
Example bodies_follow_a_context_that_is_rendered :
  let an := Scenario.notifier "" "" None in
  let w := Scenario.world_of an in
  let bodies (ctx : Context) :=
    models.Body <$> sent_commands
      (new_events (@Notify Scenario.grouped 1%positive ctx [Scenario.alert1]) w) in
  let ctx1 := Scenario.WithGroupLabels context_Background "alertname=alert1" in
  let ctx2 := Scenario.WithGroupLabels context_Background "alertname=" in
  length (bodies ctx1) = 1
  ∧ length (bodies ctx2) = 1
  ∧ bodies ctx1 ≠ bodies ctx2.
Proof.
  intros an w bodies ctx1 ctx2.
  split; [vm_compute; reflexivity|]. split; [vm_compute; reflexivity|].
  intros Heq. vm_compute in Heq. discriminate Heq.
Qed.


(** * Further properties of the channel *)

(** A setting counts as present exactly when the settings document is an
    object that holds a non-empty string under the key. *)
Lemma setting_nonempty (config : NotificationChannelConfig.t) (key : string) :
  setting config key ≠ "" ↔
  ∃ m s, NotificationChannelConfig.Settings config = JObject m
         ∧ m !! key = Some (JString s) ∧ s ≠ "".
Proof.
  unfold setting, simplejson.MustString, simplejson.String_, simplejson.Get. split.
  - destruct (NotificationChannelConfig.Settings config) as [| | | | |m]; try done.
    destruct (m !! key) as [[| | |s| |]|] eqn:Hk; cbn; try done.
    intros Hs. by exists m, s.
  - intros (m & s & -> & -> & Hs). exact Hs.
Qed.

(** X1: the factory returns a notifier exactly when the settings document
    is an object holding non-empty strings under dagId and url; a value of
    another kind, or an empty string, counts as missing. *)
Theorem X1_factory_succeeds_iff (fc : FactoryConfig) (w : World) :
  (∃ p w', AirflowFactory fc w = (Returned (Some p, None), w'))
  ↔ ∃ m dagId url,
      NotificationChannelConfig.Settings (Config fc) = JObject m
      ∧ m !! "dagId" = Some (JString dagId) ∧ dagId ≠ ""
      ∧ m !! "url" = Some (JString url) ∧ url ≠ "".
Proof.
  split.
  - intros (p & w' & Hrun).
    unfold AirflowFactory, mbind, Go_bind in Hrun.
    rewrite NewAirflowConfig_run in Hrun.
    destruct (decide (setting (Config fc) "dagId" = "")) as [|Hdag]; [discriminate|].
    destruct (decide (setting (Config fc) "url" = "")) as [|Hurl]; [discriminate|].
    apply setting_nonempty in Hdag as (m & d & Hm & Hd & Hne).
    apply setting_nonempty in Hurl as (m' & u & Hm' & Hu & Hne').
    rewrite Hm in Hm'. injection Hm' as <-. by exists m, d, u.
  - intros (m & d & u & Hm & Hd & Hne & Hu & Hne').
    destruct (AirflowFactory_run fc w) as (p & an & Hrun & _).
    + apply setting_nonempty. by exists m, d.
    + apply setting_nonempty. by exists m, u.
    + by eexists _, _.
Qed.

(** X2: when a required setting is missing the factory returns the wrapped
    reason and nothing else happens: the decrypt function is not called,
    nothing is allocated and nothing is logged. *)
Theorem X2_failed_construction_has_no_effect (fc : FactoryConfig) (w : World) :
  setting (Config fc) "dagId" = "" ∨ setting (Config fc) "url" = "" →
  ∃ reason,
    AirflowFactory fc w = (Returned (None, Some (receiverInitError reason (Config fc))), w)
    ∧ new_events (AirflowFactory fc) w = []
    ∧ (reason = "Could not find DAG ID property in settings"
       ∨ reason = "Could not find url property in settings").
Proof.
  intros Hmiss. unfold new_events, AirflowFactory, mbind, Go_bind.
  rewrite NewAirflowConfig_run.
  destruct (decide (setting (Config fc) "dagId" = "")).
  { eexists. split; [reflexivity|]. cbn [snd]. rewrite drop_all. split; [done | by left]. }
  destruct (decide (setting (Config fc) "url" = "")).
  { eexists. split; [reflexivity|]. cbn [snd]. rewrite drop_all. split; [done | by right]. }
  by destruct Hmiss.
Qed.

Lemma X2_witness :
  let fc := Scenario.factory {[ "dagId" := JString "somedag"; "url" := JNumber "8080" ]} None in
  (setting (Config fc) "dagId" = "" ∨ setting (Config fc) "url" = "")
  ∧ ∃ reason,
      AirflowFactory fc Scenario.start
      = (Returned (None, Some (receiverInitError reason (Config fc))), Scenario.start)
      ∧ new_events (AirflowFactory fc) Scenario.start = []
      ∧ (reason = "Could not find DAG ID property in settings"
         ∨ reason = "Could not find url property in settings").
Proof.
  intros fc.
  assert (Hmiss : setting (Config fc) "dagId" = "" ∨ setting (Config fc) "url" = "")
    by (right; reflexivity).
  split; [exact Hmiss|].
  exact (X2_failed_construction_has_no_effect fc Scenario.start Hmiss).
Defined.

(** The notifier the factory builds, in full. *)
Lemma AirflowFactory_builds (fc : FactoryConfig) (w : World) :
  setting (Config fc) "dagId" ≠ "" →
  setting (Config fc) "url" ≠ "" →
  ∃ p an,
    AirflowFactory fc w
      = (Returned (Some p, None),
         {| journal := journal w ++ [Decrypted "password"]; heap := <[p := an]> (heap w) |})
    ∧ heap w !! p = None
    ∧ an = {| Base_ := {| Base.Name := NotificationChannelConfig.Name (Config fc);
                          Base.Type_ := NotificationChannelConfig.Type_ (Config fc);
                          Base.UID := NotificationChannelConfig.UID (Config fc);
                          Base.DisableResolveMessage :=
                            NotificationChannelConfig.DisableResolveMessage (Config fc) |};
              URL := setting (Config fc) "url";
              DagID := setting (Config fc) "dagId";
              User := setting (Config fc) "username";
              Password := DecryptFunc fc context_Background
                            (NotificationChannelConfig.SecureSettings (Config fc))
                            "password" (setting (Config fc) "password");
              RunId := setting (Config fc) "runId";
              LogicalDate := setting (Config fc) "logicalDate";
              State := setting (Config fc) "state";
              Conf := gostrings.ReplaceAll (setting (Config fc) "conf")
                        (byte_string squote) (byte_string dquote);
              log_ := log.New "alerting.notifier.airflow";
              ns := NotificationService fc;
              tmpl := Template fc |}.
Proof.
  intros Hdag Hurl. unfold AirflowFactory, mbind, Go_bind.
  rewrite NewAirflowConfig_run.
  rewrite decide_False by done. rewrite decide_False by done.
  unfold NewAirflowNotifier, new. cbn [record journal heap].
  eexists _, _. split; [reflexivity|].
  split; [|reflexivity].
  apply not_elem_of_dom, is_fresh.
Qed.

Section MoreNotifyProperties.
Context `{Package}.

(** X3: from the settings to the wire.  For settings with both required
    fields whose conf, after the replacement of quotes, is not the JSON
    null, the factory followed by a call sends one request: to the
    endpoint made of the url and dagId settings as they are, with the
    username setting and the decrypted password as credentials; the
    answer of the configured sender decides the result; and the factory
    leaves the notifiers that existed before as they were. *)
Theorem X3_settings_reach_the_request (fc : FactoryConfig) (ctx : Context)
    (as_ : list types.Alert) (w : World) :
  setting (Config fc) "dagId" ≠ "" →
  setting (Config fc) "url" ≠ "" →
  json.decode (gostrings.ReplaceAll (setting (Config fc) "conf")
                 (byte_string squote) (byte_string dquote)) ≠ Some JNull →
  ∃ p w1 cmd,
    AirflowFactory fc w = (Returned (Some p, None), w1)
    ∧ heap w !! p = None
    ∧ (∀ q, q ≠ p → heap w1 !! q = heap w !! q)
    ∧ sent_commands (new_events (Notify p ctx as_) w1) = [cmd]
    ∧ models.Url cmd
      = setting (Config fc) "url" +:+ "/api/v1/dags/" +:+ setting (Config fc) "dagId"
        +:+ "/dagRuns"
    ∧ models.User cmd = setting (Config fc) "username"
    ∧ models.Password cmd
      = DecryptFunc fc context_Background
          (NotificationChannelConfig.SecureSettings (Config fc)) "password"
          (setting (Config fc) "password")
    ∧ (Notify p ctx as_ w1).1
      = Returned
          match notifications.SendWebhookSync (NotificationService fc) ctx cmd
                  (journal w ++
                   [Decrypted "password";
                    Logged "alerting.notifier.airflow" LvlDebug
                      "executing airflow notification"
                      [("notification",
                        LogString (NotificationChannelConfig.Name (Config fc)))]])
          with
          | Some e => (false, Some e)
          | None => (true, None)
          end.
Proof.
  intros Hdag Hurl Hnull.
  destruct (AirflowFactory_builds fc w Hdag Hurl) as (p & an & Hrun & Hfresh & Han).
  set (w1 := {| journal := _; heap := _ |}) in Hrun.
  assert (Hp : heap w1 !! p = Some an) by apply lookup_insert_eq.
  assert (Hconf : Conf an = gostrings.ReplaceAll (setting (Config fc) "conf")
                              (byte_string squote) (byte_string dquote))
    by (by rewrite Han).
  assert (Hns : ns an = NotificationService fc) by (by rewrite Han).
  assert (Hdebug : debug_entry an
                   = Logged "alerting.notifier.airflow" LvlDebug
                       "executing airflow notification"
                       [("notification",
                         LogString (NotificationChannelConfig.Name (Config fc)))])
    by (by rewrite Han).
  assert (Hnull' : json.decode (Conf an) ≠ Some JNull) by (by rewrite Hconf).
  exists p, w1, (request an (moment an w1) ctx as_ (custom_members an)).
  split; [exact Hrun|]. split; [exact Hfresh|].
  split; [intros q Hq; unfold w1; cbn [heap]; by rewrite lookup_insert_ne|].
  split; [by apply Notify_sends_one|].
  split; [cbn [request models.Url]; rewrite Sprintf_airflowUrl; by rewrite Han|].
  split; [by rewrite Han|]. split; [by rewrite Han|].
  rewrite (Notify_run p an ctx as_ w1 Hp), (custom_conf_not_null an Hnull').
  cbn zeta. cbn [fst]. rewrite Hdebug, Hns. unfold delivered, w1. cbn [journal].
  by rewrite <- app_assoc.
Qed.


(** X4: for a notifier built by the factory, SendResolved returns the
    negation of the receiver's DisableResolveMessage and leaves the world
    as it is, and it still does after a Notify call on that notifier. *)
Theorem X4_SendResolved_of_factory (fc : FactoryConfig) (ctx : Context)
    (as_ : list types.Alert) (w w1 : World) (p : positive) :
  AirflowFactory fc w = (Returned (Some p, None), w1) →
  SendResolved p w1
    = (Returned (negb (NotificationChannelConfig.DisableResolveMessage (Config fc))), w1)
  ∧ SendResolved p (Notify p ctx as_ w1).2
    = (Returned (negb (NotificationChannelConfig.DisableResolveMessage (Config fc))),
       (Notify p ctx as_ w1).2).
Proof.
  intros Hrun.
  assert (Hbuilt : ∃ an, heap w1 !! p = Some an
            ∧ Base.DisableResolveMessage (Base_ an)
              = NotificationChannelConfig.DisableResolveMessage (Config fc)).
  { unfold AirflowFactory, mbind, Go_bind in Hrun.
    rewrite NewAirflowConfig_run in Hrun.
    destruct (decide (setting (Config fc) "dagId" = "")); [discriminate|].
    destruct (decide (setting (Config fc) "url" = "")); [discriminate|].
    unfold NewAirflowNotifier, new in Hrun. cbn [record journal heap] in Hrun.
    injection Hrun as <- <-. cbn [heap]. eexists. split; [apply lookup_insert_eq|].
    reflexivity. }
  destruct Hbuilt as (an & Hp & Hdis).
  assert (Hsr : ∀ v, heap v !! p = Some an →
            SendResolved p v
            = (Returned (negb (NotificationChannelConfig.DisableResolveMessage (Config fc))),
               v)).
  { intros v Hv. unfold SendResolved, mbind, Go_bind, load. rewrite Hv.
    unfold Base.GetDisableResolveMessage. by rewrite Hdis. }
  split; [by apply Hsr|]. apply Hsr. by rewrite Notify_heap.
Qed.

(** X5: a custom configuration that the program decodes without an
    error (a JSON object all of whose numbers are in the range of
    [float64]) is sent with all its members, each as an [interface{}]
    holds it, except that a member named trigger is replaced by the
    trigger the call builds. *)
Theorem X5_custom_trigger_is_replaced (p : positive) (an : AirflowNotifier)
    (ctx : Context) (as_ : list types.Alert) (w : World) (m : gmap string Json) :
  heap w !! p = Some an →
  json.decode (Conf an) = Some (JObject m) →
  Forall (λ lit, is_Some (float64_text lit)) (json.numbers (Conf an)) →
  ∃ cmd doc conf,
    sent_commands (new_events (Notify p ctx as_) w) = [cmd]
    ∧ models.Body cmd = encoding_json.encode (JObject doc)
    ∧ doc !! "conf" = Some (JObject conf)
    ∧ conf !! "trigger"
      = Some (JObject (JString <$> trigger an (moment an w) ctx as_))
    ∧ (∀ k, k ≠ "trigger" → conf !! k = encoding_json.to_interface <$> m !! k)
    ∧ dom conf = dom m ∪ {[ "trigger" ]}.
Proof.
  intros Hp Hm Hnumbers.
  assert (Hnull : json.decode (Conf an) ≠ Some JNull) by (by rewrite Hm).
  assert (Hcustom : custom_members an = encoding_json.to_interface <$> m).
  { unfold custom_members. rewrite Hm. by rewrite decide_True. }
  eexists _, _, _. split; [by apply Notify_sends_one|].
  split; [reflexivity|]. unfold body_document. rewrite Hcustom.
  split; [by rewrite lookup_insert_eq|].
  split; [by rewrite lookup_insert_eq|].
  split; [intros k Hk; rewrite lookup_insert_ne by done; by rewrite lookup_fmap|].
  rewrite dom_insert_L, dom_fmap_L. set_solver.
Qed.

(** X6: a call that reports delivery has sent exactly one request, and the
    sender answered it without an error; and a call never reports delivery
    together with an error. *)
Theorem X6_delivered_means_sent (p : positive) (ctx : Context)
    (as_ : list types.Alert) (w : World) (err : option error) :
  (Notify p ctx as_ w).1 = Returned (true, err) →
  err = None
  ∧ ∃ cmd, sent_commands (new_events (Notify p ctx as_) w) = [cmd]
           ∧ last (new_events (Notify p ctx as_) w) = Some (Sent cmd None).
Proof.
  destruct (heap w !! p) as [an|] eqn:Hp.
  - rewrite (Notify_events p an ctx as_ w Hp), (Notify_run p an ctx as_ w Hp).
    destruct (custom_conf an) as [custom|]; [|discriminate].
    cbn zeta. cbn [fst]. unfold delivered, after_answer, debug_entry.
    destruct (notifications.SendWebhookSync _ _ _ _); [discriminate|].
    intros [= <-]. split; [reflexivity|]. by eexists.
  - unfold Notify, mbind, Go_bind, load. rewrite Hp. discriminate.
Qed.

(** X7: a call sends at most one request, whatever the sender answers (it
    does not retry), writes at most one entry of error severity, and its
    two results agree: it never returns [false] without an error. *)
Theorem X7_at_most_one_request (p : positive) (ctx : Context)
    (as_ : list types.Alert) (w : World) :
  length (sent_commands (new_events (Notify p ctx as_) w)) ≤ 1
  ∧ length (error_entries (new_events (Notify p ctx as_) w)) ≤ 1
  ∧ (Notify p ctx as_ w).1 ≠ Returned (false, None).
Proof.
  destruct (heap w !! p) as [an|] eqn:Hp.
  - rewrite (Notify_events p an ctx as_ w Hp), (Notify_run p an ctx as_ w Hp).
    destruct (custom_conf an) as [custom|].
    + cbn zeta. cbn [fst]. unfold delivered, after_answer, debug_entry, error_entry.
      destruct (notifications.SendWebhookSync _ _ _ _);
        (split; [cbn; lia|]); (split; [cbn; lia | discriminate]).
    + cbn [fst]. unfold debug_entry. split; [cbn; lia|]. split; [cbn; lia | discriminate].
  - unfold new_events, Notify, mbind, Go_bind, load. rewrite Hp. cbn [fst snd].
    rewrite drop_all. split; [cbn; lia|]. split; [cbn; lia | discriminate].
Qed.

(** X9: a conf setting that is not JSON, or is JSON of another kind than
    an object or null (an array, a string, a number, a boolean), does not
    stop the call: one request is sent, whose conf holds the trigger and
    nothing else. *)
Theorem X9_unusable_conf_is_dropped (p : positive) (an : AirflowNotifier)
    (ctx : Context) (as_ : list types.Alert) (w : World) :
  heap w !! p = Some an →
  json.decode (Conf an) ≠ Some JNull →
  (∀ m, json.decode (Conf an) ≠ Some (JObject m)) →
  ∃ cmd doc answer,
    new_events (Notify p ctx as_) w
      = [debug_entry an; Sent cmd answer] ++ after_answer an cmd answer
    ∧ (Notify p ctx as_ w).1 = Returned (delivered answer)
    ∧ models.Body cmd = encoding_json.encode (JObject doc)
    ∧ doc !! "conf"
      = Some (JObject {[ "trigger" :=
                JObject (JString <$> trigger an (moment an w) ctx as_) ]}).
Proof.
  intros Hp Hnull Hobj.
  rewrite (Notify_events p an ctx as_ w Hp), (Notify_run p an ctx as_ w Hp).
  rewrite (custom_conf_not_null an Hnull). cbn zeta. cbn [fst].
  eexists _, _, _. split; [reflexivity|]. split; [reflexivity|].
  split; [reflexivity|]. unfold body_document. rewrite lookup_insert_eq.
  by rewrite (custom_members_no_object an Hobj).
Qed.

End MoreNotifyProperties.

Lemma string_map_unchanged (old new : ascii) (s : string) :
  string_count old s = 0 → string_map (replace_byte old new) s = s.
Proof.
  induction s as [|c r IH]; [reflexivity|].
  cbn [string_count string_map]. unfold replace_byte at 1.
  destruct (Ascii.eqb old c); [discriminate|].
  cbn [Nat.add]. intros Hr. by rewrite IH.
Qed.

(** X8: a conf setting without a single quote is stored as it is, so a
    document written with double quotes reaches the decoder unchanged; and
    the stored conf is a fixed point of the replacement. *)
Theorem X8_conf_without_single_quotes_is_kept (config : NotificationChannelConfig.t)
    (decryptFunc : GetDecryptedValueFn) (w w' : World) (cfg : AirflowConfig.t) :
  NewAirflowConfig config decryptFunc w = (Returned (Some cfg, None), w') →
  (string_count squote (setting config "conf") = 0 →
   AirflowConfig.Conf cfg = setting config "conf")
  ∧ gostrings.ReplaceAll (AirflowConfig.Conf cfg) (byte_string squote) (byte_string dquote)
    = AirflowConfig.Conf cfg.
Proof.
  rewrite NewAirflowConfig_run.
  destruct (decide (setting config "dagId" = "")); [discriminate|].
  destruct (decide (setting config "url" = "")); [discriminate|].
  intros [= <- _]. cbn [AirflowConfig.Conf built_config].
  rewrite !ReplaceAll_byte. split.
  - apply string_map_unchanged.
  - apply string_map_unchanged. by apply string_count_replaced.
Qed.

(** ** The further properties, at concrete inputs *)

Lemma X3_witness :
  let settings : gmap string Json :=
    <["username" := JString "airflow"]> (<["password" := JString "plain"]>
      Scenario.settingsA) in
  let fc := Scenario.factory settings (Some Scenario.refused) in
  setting (Config fc) "dagId" ≠ ""
  ∧ setting (Config fc) "url" ≠ ""
  ∧ json.decode (gostrings.ReplaceAll (setting (Config fc) "conf")
                   (byte_string squote) (byte_string dquote)) ≠ Some JNull
  ∧ ∃ p w1 cmd,
      AirflowFactory fc Scenario.start = (Returned (Some p, None), w1)
      ∧ sent_commands
          (new_events (@Notify Scenario.package p context_Background [Scenario.alert1]) w1)
        = [cmd]
      ∧ models.Url cmd = "http://localhost/api/v1/dags/somedag/dagRuns"
      ∧ models.User cmd = "airflow"
      ∧ models.Password cmd = "plain"
      ∧ (@Notify Scenario.package p context_Background [Scenario.alert1] w1).1
        = Returned (false, Some Scenario.refused).
Proof.
  intros settings fc.
  assert (Hdag : setting (Config fc) "dagId" ≠ "") by (vm_compute; discriminate).
  assert (Hurl : setting (Config fc) "url" ≠ "") by (vm_compute; discriminate).
  assert (Hnull : json.decode (gostrings.ReplaceAll (setting (Config fc) "conf")
                                 (byte_string squote) (byte_string dquote)) ≠ Some JNull)
    by (vm_compute; discriminate).
  split; [exact Hdag|]. split; [exact Hurl|]. split; [exact Hnull|].
  destruct (@X3_settings_reach_the_request Scenario.package fc context_Background
              [Scenario.alert1] Scenario.start Hdag Hurl Hnull)
    as (p & w1 & cmd & Hrun & _ & _ & Hsent & Hcmd_url & Huser & Hpass & Hres).
  exists p, w1, cmd. split; [exact Hrun|]. split; [exact Hsent|].
  split; [exact Hcmd_url|]. split; [exact Huser|]. split; [exact Hpass|]. exact Hres.
Defined.

Lemma X4_witness :
  let fc := Scenario.factory Scenario.settingsA None in
  let w1 := {| journal := [Decrypted "password"];
               heap := {[ 1%positive := Scenario.notifier "" "" None ]} |} in
  AirflowFactory fc Scenario.start = (Returned (Some 1%positive, None), w1)
  ∧ SendResolved 1%positive w1 = (Returned true, w1).
Proof.
  intros fc w1.
  assert (Hrun : AirflowFactory fc Scenario.start = (Returned (Some 1%positive, None), w1))
    by reflexivity.
  split; [exact Hrun|].
  exact (proj1 (@X4_SendResolved_of_factory Scenario.package fc context_Background
                  [Scenario.alert1] Scenario.start w1 1%positive Hrun)).
Defined.

Lemma X5_witness :
  let conf := "{" +:+ Scenario.quoted "trigger" +:+ ":" +:+ Scenario.quoted "mine" +:+ ","
              +:+ Scenario.quoted "a" +:+ ":[1,-20]}" in
  let an := Scenario.notifier "" conf None in
  let w := Scenario.world_of an in
  let m : gmap string Json :=
    {[ "trigger" := JString "mine"; "a" := JArray [JNumber "1"; JNumber "-20"] ]} in
  heap w !! 1%positive = Some an
  ∧ json.decode (Conf an) = Some (JObject m)
  ∧ Forall (λ lit, is_Some (@float64_text Scenario.floats lit)) (json.numbers (Conf an))
  ∧ ∃ cmd doc conf',
      sent_commands
        (new_events (@Notify Scenario.package 1%positive context_Background
                       [Scenario.alert1]) w) = [cmd]
      ∧ models.Body cmd = encoding_json.encode (JObject doc)
      ∧ doc !! "conf" = Some (JObject conf')
      ∧ conf' !! "a" = Some (JArray [JNumber "1"; JNumber "-20"])
      ∧ conf' !! "trigger" ≠ Some (JString "mine").
Proof.
  intros conf an w m.
  assert (Hp : heap w !! 1%positive = Some an) by reflexivity.
  assert (Hm : json.decode (Conf an) = Some (JObject m)) by (vm_compute; reflexivity).
  assert (Hnumbers : Forall (λ lit, is_Some (@float64_text Scenario.floats lit))
                       (json.numbers (Conf an))).
  { change (json.numbers (Conf an)) with ["1"; "-20"].
    repeat constructor; by eexists. }
  split; [exact Hp|]. split; [exact Hm|]. split; [exact Hnumbers|].
  destruct (@X5_custom_trigger_is_replaced Scenario.package 1%positive an
              context_Background [Scenario.alert1] w m Hp Hm Hnumbers)
    as (cmd & doc & conf' & Hsent & Hbody & Hconf & Htrigger & Hrest & _).
  exists cmd, doc, conf'. split; [exact Hsent|]. split; [exact Hbody|].
  split; [exact Hconf|]. split.
  - rewrite (Hrest "a") by discriminate. reflexivity.
  - rewrite Htrigger. discriminate.
Defined.

Lemma X6_witness :
  let an := Scenario.notifier "" "" None in
  let w := Scenario.world_of an in
  let call := @Notify Scenario.package 1%positive context_Background [Scenario.alert1] in
  (call w).1 = Returned (true, None)
  ∧ ∃ cmd, sent_commands (new_events call w) = [cmd]
           ∧ last (new_events call w) = Some (Sent cmd None).
Proof.
  intros an w call.
  assert (Hres : (call w).1 = Returned (true, None)) by (vm_compute; reflexivity).
  split; [exact Hres|].
  exact (proj2 (@X6_delivered_means_sent Scenario.package 1%positive context_Background
                  [Scenario.alert1] w None Hres)).
Defined.

Lemma X8_witness :
  let text := "{" +:+ Scenario.quoted "a" +:+ ": " +:+ Scenario.quoted "b" +:+ "}" in
  let config := Scenario.receiver (<["conf" := JString text]> Scenario.settingsA) in
  let cfg := built_config config Scenario.no_decrypt in
  NewAirflowConfig config Scenario.no_decrypt Scenario.start
    = (Returned (Some cfg, None), record [Decrypted "password"] Scenario.start)
  ∧ string_count squote (setting config "conf") = 0
  ∧ AirflowConfig.Conf cfg = text.
Proof.
  intros text config cfg.
  assert (Hrun : NewAirflowConfig config Scenario.no_decrypt Scenario.start
                 = (Returned (Some cfg, None), record [Decrypted "password"] Scenario.start))
    by reflexivity.
  assert (Hnone : string_count squote (setting config "conf") = 0) by reflexivity.
  split; [exact Hrun|]. split; [exact Hnone|].
  exact (proj1 (X8_conf_without_single_quotes_is_kept _ _ _ _ _ Hrun) Hnone).
Defined.

Lemma X9_witness :
  let an := Scenario.notifier "" "[1,2]" None in
  let w := Scenario.world_of an in
  let call := @Notify Scenario.package 1%positive context_Background [Scenario.alert1] in
  heap w !! 1%positive = Some an
  ∧ json.decode (Conf an) ≠ Some JNull
  ∧ (∀ m, json.decode (Conf an) ≠ Some (JObject m))
  ∧ ∃ cmd doc,
      sent_commands (new_events call w) = [cmd]
      ∧ models.Body cmd = encoding_json.encode (JObject doc)
      ∧ doc !! "conf"
        = Some (JObject {[ "trigger" :=
                  JObject (JString <$> @trigger Scenario.package an (moment an w)
                                         context_Background [Scenario.alert1]) ]}).
Proof.
  intros an w call.
  assert (Hp : heap w !! 1%positive = Some an) by reflexivity.
  assert (Hnull : json.decode (Conf an) ≠ Some JNull) by (vm_compute; discriminate).
  assert (Hobj : ∀ m, json.decode (Conf an) ≠ Some (JObject m))
    by (intros m; vm_compute; discriminate).
  split; [exact Hp|]. split; [exact Hnull|]. split; [exact Hobj|].
  destruct (@X9_unusable_conf_is_dropped Scenario.package 1%positive an
              context_Background [Scenario.alert1] w Hp Hnull Hobj)
    as (cmd & doc & answer & Hev & _ & Hbody & Hconf).
  exists cmd, doc. split; [|by split].
  unfold call. rewrite Hev. unfold after_answer, debug_entry, error_entry.
  by destruct answer.
Defined.

(** * Properties of the other models *)

(** X10: a command to create a correlation validates exactly when its
    config type is query and it has a target UID.  A config type other
    than query is reported first, with the type quoted in the message,
    whether or not a target UID is there; a missing target UID is
    reported only for the type query. *)
Theorem X10_create_correlation_validates_iff (c : correlations.CreateCorrelationCommand) :
  let t := correlations.Type_ (correlations.Config c) in
  (correlations.CreateCorrelationCommand_Validate c = None
   ↔ t = "query" ∧ correlations.TargetUID c ≠ None)
  ∧ (t ≠ "query" →
     correlations.CreateCorrelationCommand_Validate c
     = Some (errors_New ("invalid correlation config type: " +:+ byte_string dquote
                         +:+ t +:+ byte_string dquote)))
  ∧ (t = "query" → correlations.TargetUID c = None →
     correlations.CreateCorrelationCommand_Validate c
     = Some (errors_New ("correlations of type " +:+ byte_string dquote +:+ "query"
                         +:+ byte_string dquote +:+ " must have a targetUID"))).
Proof.
  intros t. unfold correlations.CreateCorrelationCommand_Validate,
    correlations.CorrelationConfigType_Validate, correlations.ConfigTypeQuery.
  fold t. split_and!.
  - destruct (decide (t ≠ "query")) as [Ht|Ht].
    + split; [discriminate | intros [? _]; done].
    + apply dec_stable in Ht.
      destruct (decide (correlations.TargetUID c = None ∧ t = "query")) as [[Hn _]|Hn].
      * split; [discriminate | intros [_ ?]; done].
      * split; [|done]. intros _. split; [done|]. intros Hnone. apply Hn. by split.
  - intros Ht. rewrite decide_True by done. reflexivity.
  - intros Ht Hnone. rewrite decide_False by (intros Hne; by apply Hne).
    rewrite decide_True by done. reflexivity.
Qed.

(** X11: the JSON of a correlation config never carries the type of the
    config: configs with the same field and the same target give the same
    text, which names the type query; a nil target is written like an
    empty one; and the marshalling never fails. *)
Theorem X11_correlation_config_json_ignores_type (c c' : correlations.CorrelationConfig) :
  correlations.Field c = correlations.Field c' →
  default ∅ (correlations.Target c) = default ∅ (correlations.Target c') →
  correlations.CorrelationConfig_MarshalJSON c
  = correlations.CorrelationConfig_MarshalJSON c'
  ∧ (correlations.CorrelationConfig_MarshalJSON c).2 = None
  ∧ (correlations.CorrelationConfig_MarshalJSON c).1
    = "{" +:+ encoding_json.quote "type" +:+ ":" +:+ encoding_json.quote "query" +:+ ","
      +:+ encoding_json.quote "field" +:+ ":" +:+ encoding_json.quote (correlations.Field c)
      +:+ "," +:+ encoding_json.quote "target" +:+ ":"
      +:+ encoding_json.encode (JObject (default ∅ (correlations.Target c))) +:+ "}".
Proof.
  intros Hfield Htarget. unfold correlations.CorrelationConfig_MarshalJSON.
  assert (Hdef : ∀ x : option (gmap string Json),
             match x with None => ∅ | Some m => m end = default ∅ x) by (by intros []).
  rewrite !Hdef. split_and!.
  - by rewrite Hfield, Htarget.
  - reflexivity.
  - cbn [fst]. unfold correlations.encode_struct, correlations.ConfigTypeQuery.
    cbn [fmap list_fmap string_join fst snd].
    change (encoding_json.encode (JString "query")) with (encoding_json.quote "query").
    change (encoding_json.encode (JString (correlations.Field c)))
      with (encoding_json.quote (correlations.Field c)).
    rewrite !string_app_assoc. reflexivity.
Qed.

Lemma X11_witness :
  let c := {| correlations.Field := "job"; correlations.Type_ := "query";
              correlations.Target := None |} in
  let c' := {| correlations.Field := "job"; correlations.Type_ := "logs";
               correlations.Target := Some ∅ |} in
  correlations.Field c = correlations.Field c'
  ∧ default ∅ (correlations.Target c) = default ∅ (correlations.Target c')
  ∧ correlations.CorrelationConfig_MarshalJSON c
    = correlations.CorrelationConfig_MarshalJSON c'.
Proof.
  intros c c'.
  assert (Hf : correlations.Field c = correlations.Field c') by reflexivity.
  assert (Ht : default ∅ (correlations.Target c) = default ∅ (correlations.Target c'))
    by reflexivity.
  split; [exact Hf|]. split; [exact Ht|].
  exact (proj1 (X11_correlation_config_json_ignores_type c c' Hf Ht)).
Defined.

(** X12: the message of a dashboard error is never empty: it is the reason
    when there is one and the fixed text [Dashboard Error] otherwise. *)
Theorem X12_dashboard_error_message_not_empty (e : publicdashboards.PublicDashboardErr) :
  publicdashboards.PublicDashboardErr_Error e ≠ ""
  ∧ (publicdashboards.Reason e ≠ "" →
     publicdashboards.PublicDashboardErr_Error e = publicdashboards.Reason e)
  ∧ (publicdashboards.Reason e = "" →
     publicdashboards.PublicDashboardErr_Error e = "Dashboard Error").
Proof.
  unfold publicdashboards.PublicDashboardErr_Error.
  destruct (decide (publicdashboards.Reason e ≠ "")) as [Hr|Hr]; split_and!; try done.
Qed.

(** X13: the time settings built for a public dashboard come from the
    dashboard alone: the public dashboard, and with it the time settings
    stored on it, has no influence on the result. *)
Theorem X13_build_time_settings_ignores_public_dashboard
    {DataTimeRange : Type} (NewDataTimeRange : Z → string → string → DataTimeRange)
    (GetFromAsMsEpoch GetToAsMsEpoch : DataTimeRange → Z)
    (pd pd' : publicdashboards.PublicDashboard) (dashboard_Data : Json) (now : Z) :
  publicdashboards.BuildTimeSettings NewDataTimeRange GetFromAsMsEpoch GetToAsMsEpoch
    pd dashboard_Data now
  = publicdashboards.BuildTimeSettings NewDataTimeRange GetFromAsMsEpoch GetToAsMsEpoch
      pd' dashboard_Data now
  ∧ ∀ m t, dashboard_Data = JObject m → m !! "time" = Some (JObject t) →
      publicdashboards.BuildTimeSettings NewDataTimeRange GetFromAsMsEpoch GetToAsMsEpoch
        pd dashboard_Data now
      = let range := NewDataTimeRange now
                       (simplejson.MustString (default JNull (t !! "from")))
                       (simplejson.MustString (default JNull (t !! "to"))) in
        {| publicdashboards.From := publicdashboards.FormatInt10 (GetFromAsMsEpoch range);
           publicdashboards.To := publicdashboards.FormatInt10 (GetToAsMsEpoch range) |}.
Proof.
  unfold publicdashboards.BuildTimeSettings. split.
  - by destruct (publicdashboards.TimeSettings_ pd), (publicdashboards.TimeSettings_ pd').
  - intros m t -> Ht. unfold publicdashboards.GetPath. cbn [foldl simplejson.Get].
    rewrite Ht. cbn [default simplejson.Get].
    by destruct (publicdashboards.TimeSettings_ pd).
Qed.

(** X14: the rule editor page shows an editor only to a user who may use
    it: the editor of an existing rule needs the right to edit rules of the
    rule's source, the form for a new rule needs the right to create
    Grafana or cloud rules; nothing is shown while loading; and the
    navigation entry is the edit one exactly when a rule was identified. *)
Theorem X14_rule_editor_respects_access (loading : bool)
    (identifier : option RuleEditor.RuleIdentifier)
    (canCreateGrafanaRules canCreateCloudRules : bool) (canEditRules : string → bool) :
  let page := RuleEditor.RuleEditor loading identifier canCreateGrafanaRules
                canCreateCloudRules canEditRules in
  (∀ i, page.2 = RuleEditor.ExistingRuleEditor i →
        loading = false ∧ identifier = Some i
        ∧ canEditRules (RuleEditor.ruleSourceName i) = true)
  ∧ (page.2 = RuleEditor.AlertRuleForm →
     loading = false ∧ identifier = None
     ∧ (canCreateGrafanaRules = true ∨ canCreateCloudRules = true))
  ∧ (loading = true → page.2 = RuleEditor.NoContent)
  ∧ (RuleEditor.id page.1 = "alert-rule-edit" ↔ is_Some identifier)
  ∧ (RuleEditor.id page.1 = "alert-rule-add" ↔ identifier = None).
Proof.
  intros page. unfold page, RuleEditor.RuleEditor, RuleEditor.getContent. cbn [fst snd].
  split_and!.
  - intros i. destruct loading; [discriminate|].
    destruct identifier as [j|]; cbn.
    + destruct (canEditRules (RuleEditor.ruleSourceName j)) eqn:He; cbn; [|discriminate].
      intros [= <-]. by rewrite He.
    + by destruct canCreateGrafanaRules, canCreateCloudRules.
  - destruct loading; [discriminate|].
    destruct identifier as [j|]; cbn.
    + by destruct (canEditRules (RuleEditor.ruleSourceName j)).
    + destruct canCreateGrafanaRules, canCreateCloudRules; cbn; try discriminate;
        intros _; (split; [done|]); (split; [done|]); auto.
  - by intros ->.
  - destruct identifier; cbn; split; try done.
  - destruct identifier; cbn; split; done.
Qed.

(** X15: the header of a context group offers to load ten more lines
    exactly when the group has at least ten rows and more rows can be
    loaded; the second alternative of the test in the code adds nothing. *)
Theorem X15_load_more_iff (rows_length : nat) (canLoadMoreRows : option bool) :
  LogRowContext.showsLoadMore rows_length canLoadMoreRows = true
  ↔ 10 ≤ rows_length ∧ canLoadMoreRows = Some true.
Proof.
  unfold LogRowContext.showsLoadMore.
  destruct (Nat.leb_spec 10 rows_length) as [Hge|Hlt].
  - cbn [orb]. destruct canLoadMoreRows as [[]|]; cbn; split; try done;
      try (intros [_ [=]]).
  - destruct (Nat.ltb_spec 10 rows_length) as [Hgt|_]; [lia|]. cbn.
    split; [done|]. intros [? _]. lia.
Qed.

(** X16: with a sort order, the group at the top and the group at the
    bottom carry opposite labels; without one both are labelled after. *)
Theorem X16_group_labels (order : option LogRowContext.LogsSortOrder) :
  (is_Some order →
   LogRowContext.logGroupPosition LogRowContext.Top order
   ≠ LogRowContext.logGroupPosition LogRowContext.Bottom order)
  ∧ (order = None →
     LogRowContext.logGroupPosition LogRowContext.Top order = "after"
     ∧ LogRowContext.logGroupPosition LogRowContext.Bottom order = "after")
  ∧ (LogRowContext.logGroupPosition LogRowContext.Top order = "before"
     ↔ order = Some LogRowContext.Ascending)
  ∧ (LogRowContext.logGroupPosition LogRowContext.Bottom order = "before"
     ↔ order = Some LogRowContext.Descending).
Proof.
  destruct order as [[]|]; cbn; split_and!; try done; try (by intros [? [=]]);
    try (intros _; discriminate).
Qed.
